(** * Runtime payload cache for ISR-enabled routes

    A shallow embedding of the two cooperating plugins of the payload cache:

    - the Nitro plugin (hooks [render:before] and [render:response]) that
      serves [_payload.json] requests from a key-value store and fills that
      store after a render;
    - the Nuxt server plugin (hook [app:rendered]) that serialises the payload
      of a finished render and stashes it on the request's event context.

    Beside them: the handler of the registry route, the hydration fix of
    the client and the logger of the connector.

    Strings are sequences of 8-bit code units (a request path as Node hands
    it over), numbers that the code only compares or copies are integers,
    timestamps are integer milliseconds as [Date.now()] returns them. *)

From Stdlib Require Import ZArith QArith Ascii String Bool List Lia.
From stdpp Require Import base option gmap strings.

Local Open Scope string_scope.
Local Open Scope Z_scope.

(** ** JavaScript string primitives used by the plugins *)

Module Js.

(** A [.] of a regular expression (no [s] flag) matches every code unit but
    a line terminator; among 8-bit code units these are LF and CR. *)
Definition is_line_terminator (c : ascii) : bool :=
  Ascii.eqb c "010"%char || Ascii.eqb c "013"%char.

(** [true] when a run of non-line-terminators covers the whole of [s]. *)
Fixpoint dot_star_to_end (s : string) : bool :=
  match s with
  | EmptyString => true
  | String c s' => negb (is_line_terminator c) && dot_star_to_end s'
  end.

(** [s.replace(re, '')] for the query pattern (a [?], then any run of
    non-line-terminators up to the end of the input): the leftmost [?] from
    which that run reaches the end starts the match; everything from there on is dropped.
    Without a match the string is returned as it is. *)
Fixpoint replace_query (s : string) : string :=
  match s with
  | EmptyString => EmptyString
  | String c s' =>
      if Ascii.eqb c "?"%char && dot_star_to_end s' then EmptyString
      else String c (replace_query s')
  end.

(** [s.replace(re, '')] for the pattern of one slash at the end of the
    input: a single slash at the very end is dropped. *)
Fixpoint replace_trailing_slash (s : string) : string :=
  match s with
  | EmptyString => EmptyString
  | String c s' =>
      match s' with
      | EmptyString => if Ascii.eqb c "/"%char then EmptyString else s
      | String _ _ => String c (replace_trailing_slash s')
      end
  end.

(** When [s] starts with [p], what follows [p]. *)
Fixpoint strip_prefix (p s : string) : option string :=
  match p, s with
  | EmptyString, _ => Some s
  | String a p', String b s' =>
      if Ascii.eqb a b then strip_prefix p' s' else None
  | String _ _, EmptyString => None
  end.

(** [hay.includes(needle)]. *)
Fixpoint includes (needle hay : string) : bool :=
  match strip_prefix needle hay with
  | Some _ => true
  | None =>
      match hay with
      | EmptyString => false
      | String _ hay' => includes needle hay'
      end
  end.

(** Every code unit of [s] differs from [c]. *)
Fixpoint without (c : ascii) (s : string) : bool :=
  match s with
  | EmptyString => true
  | String d s' => negb (Ascii.eqb d c) && without c s'
  end.

(** [s.endsWith(c)] for one code unit. *)
Fixpoint ends_with (c : ascii) (s : string) : bool :=
  match s with
  | EmptyString => false
  | String d EmptyString => Ascii.eqb d c
  | String _ s' => ends_with c s'
  end.

(** [s.lastIndexOf(c)] for a one-character needle, [-1] when absent.
    [i] is the index of the head of [s], [found] the last hit so far. *)
Fixpoint lastIndexOf_from (c : ascii) (s : string) (i found : Z) : Z :=
  match s with
  | EmptyString => found
  | String d s' =>
      lastIndexOf_from c s' (i + 1) (if Ascii.eqb d c then i else found)
  end.

Definition lastIndexOf (c : ascii) (s : string) : Z :=
  lastIndexOf_from c s 0 (-1).

(** [s.substring(start, end)]: both indices are clamped to [0, length]
    and swapped when [start > end]. *)
Definition clamp (len i : Z) : Z := Z.max 0 (Z.min i len).

Definition substring (s : string) (i j : Z) : string :=
  let len := Z.of_nat (String.length s) in
  let a := clamp len i in
  let b := clamp len j in
  let lo := Z.min a b in
  let hi := Z.max a b in
  String.substring (Z.to_nat lo) (Z.to_nat (hi - lo)) s.

(** [s || fallback]: the empty string is falsy. *)
Definition or_else (s fallback : string) : string :=
  match s with
  | EmptyString => fallback
  | String _ _ => s
  end.

End Js.

(** ** Constants of the Nitro plugin *)

(** [PAYLOAD_URL_RE]: from the start of the input any run of code units
    other than [?], then the literal [/_payload.json], then optionally a [?]
    followed by any run of non-line-terminators, then the end of the input.
    [payload_url_tail s] matches the part from the literal on at the head of
    [s]; [PAYLOAD_URL_RE_test] lets the leading run consume a prefix free
    of [?], trying the literal at every position it reaches. *)
Definition payload_url_tail (s : string) : bool :=
  match Js.strip_prefix "/_payload.json" s with
  | Some EmptyString => true
  | Some (String c q) => Ascii.eqb c "?"%char && Js.dot_star_to_end q
  | None => false
  end.

Fixpoint PAYLOAD_URL_RE_test (s : string) : bool :=
  payload_url_tail s ||
  match s with
  | EmptyString => false
  | String c s' => negb (Ascii.eqb c "?"%char) && PAYLOAD_URL_RE_test s'
  end.

Definition PAYLOAD_CACHE_STORAGE_KEY : string := "payload-cache".

(** Default TTL for cached payloads (seconds). *)
Definition PAYLOAD_CACHE_TTL : Z := 60.

(** Grace period beyond the TTL where stale payloads are still served
    (seconds). *)
Definition PAYLOAD_CACHE_STALE_TTL : Z := PAYLOAD_CACHE_TTL * 2.

(** ** Route paths and cache keys *)

(** [getRouteFromPayloadUrl]: the route path of a [_payload.json] URL. *)
Definition getRouteFromPayloadUrl (url : string) : string :=
  let withoutQuery := Js.replace_query url in
  Js.or_else
    (Js.substring withoutQuery 0 (Js.lastIndexOf "/"%char withoutQuery))
    "/".

(** The route path the [render:response] hook derives for an HTML render. *)
Definition htmlRoutePath (path : string) : string :=
  let pathWithoutQuery := Js.replace_query path in
  if String.eqb pathWithoutQuery "/" then "/"
  else Js.replace_trailing_slash pathWithoutQuery.


(** ** Data model *)

(** What a rejected promise or a [throw] carries. *)
Definition Error : Type := string.

(** [CachedPayload]: the persisted cache entry. *)
Record CachedPayload : Type := mkCachedPayload {
  cp_body : string;
  cp_statusCode : Z;
  cp_headers : gmap string string;
  cp_cachedAt : Z;
  cp_buildId : string
}.

(** The type of [event.context._cachedPayloadResponse], which is also the
    type of the [payload] argument of [cachePayload]. *)
Record PayloadResponse : Type := mkPayloadResponse {
  pr_body : string;
  pr_statusCode : Z;
  pr_headers : gmap string string
}.

(** A response body is a string or something else (a stream, a buffer,
    [undefined]): the plugin only asks [typeof body]. *)
Inductive Body : Type :=
| BodyString (s : string)
| BodyOther.

(** The render response, every field optional as in the framework's type. *)
Record NuxtRenderResponse : Type := mkResponse {
  body : Body;
  statusCode : option Z;
  statusMessage : option string;
  headers : option (gmap string string)
}.

(** The promise [storage.setItem(cacheKey, entry).catch(...)] handed to
    [event.waitUntil]: the write it will perform and the route path its
    rejection handler reports. *)
Record DeferredWrite : Type := mkDeferredWrite {
  dw_key : string;
  dw_entry : CachedPayload;
  dw_routePath : string
}.

Record H3EventContext : Type := mkContext {
  _cachedPayloadResponse : option PayloadResponse
}.

Record H3Event : Type := mkEvent {
  path : string;
  context : H3EventContext;
  (** promises registered with [event.waitUntil], oldest first *)
  pending : list DeferredWrite
}.

(** The [ctx] object shared by the hooks of one request. *)
Record RenderContext : Type := mkRenderContext {
  event : H3Event;
  response : option NuxtRenderResponse
}.

(** The key-value store behind [useStorage('payload-cache')]: its items and,
    per key, whether a read or a write of that key is rejected. *)
Record Storage : Type := mkStorage {
  items : gmap string CachedPayload;
  read_error : string -> option Error;
  write_error : string -> option Error
}.

(** Lines written to the console in development mode. *)
Inductive LogLine : Type :=
| LogHit (routePath : string) (age : Q)
| WarnReadFailed (routePath : string) (error : Error)
| LogCached (routePath : string)
| WarnWriteFailed (routePath : string) (error : Error)
| WarnSerializeFailed (error : Error).

(** Everything a hook can read or change. *)
Record World : Type := mkWorld {
  storage : Storage;
  clock : Z;                      (** what [Date.now()] returns, in ms *)
  ctx : RenderContext;
  console : list LogLine
}.

(** Route rules as [getRouteRules(event)] returns them; only the truthiness
    of [isr] and [cache] is looked at. *)
Inductive IsrRule : Type :=
| IsrBool (b : bool)
| IsrSeconds (n : Z).

Inductive CacheRule : Type :=
| CacheFalse
| CacheOptions.

Record NitroRouteRules : Type := mkRules {
  isr : option IsrRule;
  cache : option CacheRule
}.

Definition isr_truthy (r : option IsrRule) : bool :=
  match r with
  | None => false
  | Some (IsrBool b) => b
  | Some (IsrSeconds n) => negb (n =? 0)
  end.

Definition cache_truthy (r : option CacheRule) : bool :=
  match r with
  | None | Some CacheFalse => false
  | Some CacheOptions => true
  end.

(** ** Hooks as computations: state and exceptions *)

Inductive Outcome (A : Type) : Type :=
| Returned (a : A) (w : World)
| Thrown (e : Error) (w : World).
Arguments Returned {A} a w.
Arguments Thrown {A} e w.

Definition M (A : Type) : Type := World -> Outcome A.

#[global] Instance M_ret : MRet M := fun A a w => Returned a w.

#[global] Instance M_bind : MBind M := fun A B f m w =>
  match m w with
  | Returned a w' => f a w'
  | Thrown e w' => Thrown e w'
  end.

Definition throw {A : Type} (e : Error) : M A := fun w => Thrown e w.

(** [try { body } catch (error) { handler(error) }] *)
Definition try_catch {A : Type} (body : M A) (handler : Error -> M A) : M A :=
  fun w =>
    match body w with
    | Returned a w' => Returned a w'
    | Thrown e w' => handler e w'
    end.

Definition when (b : bool) (m : M unit) : M unit :=
  if b then m else mret tt.

Definition final_world {A : Type} (o : Outcome A) : World :=
  match o with
  | Returned _ w => w
  | Thrown _ w => w
  end.

Definition returned {A : Type} (o : Outcome A) : bool :=
  match o with
  | Returned _ _ => true
  | Thrown _ _ => false
  end.

(** *** Primitive effects *)

Definition Date_now : M Z := fun w => Returned (clock w) w.

Definition get_ctx : M RenderContext := fun w => Returned (ctx w) w.

Definition set_ctx (c : RenderContext) : M unit := fun w =>
  Returned tt (mkWorld (storage w) (clock w) c (console w)).

Definition console_write (l : LogLine) : M unit := fun w =>
  Returned tt (mkWorld (storage w) (clock w) (ctx w) (console w ++ [l])).

(** [await storage.getItem(key)] *)
Definition storage_getItem (key : string) : M (option CachedPayload) := fun w =>
  match read_error (storage w) key with
  | Some e => Thrown e w
  | None => Returned (items (storage w) !! key) w
  end.

(** [await storage.setItem(key, entry)] *)
Definition storage_setItem (key : string) (entry : CachedPayload) : M unit := fun w =>
  match write_error (storage w) key with
  | Some e => Thrown e w
  | None =>
      let st := storage w in
      Returned tt
        (mkWorld (mkStorage (<[key := entry]> (items st)) (read_error st) (write_error st))
                 (clock w) (ctx w) (console w))
  end.

(** [ctx.response = r] *)
Definition set_response (r : NuxtRenderResponse) : M unit :=
  c ← get_ctx;
  set_ctx (mkRenderContext (event c) (Some r)).

(** [event.waitUntil(promise)] *)
Definition event_waitUntil (d : DeferredWrite) : M unit :=
  c ← get_ctx;
  let e := event c in
  set_ctx (mkRenderContext (mkEvent (path e) (context e) (pending e ++ [d])) (response c)).

(** [event.context._cachedPayloadResponse = v] ([None]: the [delete]) *)
Definition set_cachedPayloadResponse (v : option PayloadResponse) : M unit :=
  c ← get_ctx;
  let e := event c in
  set_ctx (mkRenderContext (mkEvent (path e) (mkContext v) (pending e)) (response c)).

(** ** The Nitro plugin *)

Section NitroPlugin.

(** [useRuntimeConfig().app.buildId] of the running deployment. *)
Variable buildId : string.
(** [import.meta.dev] *)
Variable dev : bool.
(** [getRouteRules], the framework's route-rule resolver. *)
Variable getRouteRules : H3Event -> NitroRouteRules.

(** Generate a cache key for a route path; includes the build ID. *)
Definition getCacheKey (routePath : string) : string :=
  buildId ++ ":" ++ routePath.

(** Check if a route has ISR or cache rules enabled. *)
Definition isISRRoute (e : H3Event) : bool :=
  let rules := getRouteRules e in
  isr_truthy (isr rules) || cache_truthy (cache rules).

(** [(Date.now() - cached.cachedAt) / 1000], in seconds. Both operands are
    integers; the quotient is kept exact. The comparison with an integer
    bound below has the same result on the exact quotient and on its
    nearest double, since rounding is monotone and fixes integers. *)
Definition age_seconds (now cachedAt : Z) : Q :=
  (inject_Z (now - cachedAt) / inject_Z 1000)%Q.

(** [age > PAYLOAD_CACHE_STALE_TTL] *)
Definition too_old (age : Q) : bool :=
  negb (Qle_bool age (inject_Z PAYLOAD_CACHE_STALE_TTL)).

(** The response a cache hit puts in [ctx.response]. *)
Definition hit_response (cached : CachedPayload) : NuxtRenderResponse :=
  {| body := BodyString (cp_body cached);
     statusCode := Some (cp_statusCode cached);
     statusMessage := Some "OK";
     headers := Some (cp_headers cached) |}.

(** [render:before]: serve cached payloads, skip the full SSR render. *)
Definition render_before : M unit :=
  c ← get_ctx;
  if negb (PAYLOAD_URL_RE_test (path (event c))) then mret tt
  else
    let routePath := getRouteFromPayloadUrl (path (event c)) in
    let cacheKey := getCacheKey routePath in
    try_catch
      (cached ← storage_getItem cacheKey;
       match cached with
       | None => mret tt
       | Some cached =>
           if negb (String.eqb (cp_buildId cached) buildId) then mret tt
           else
             now ← Date_now;
             let age := age_seconds now (cp_cachedAt cached) in
             if too_old age then mret tt
             else
               when dev (console_write (LogHit routePath age));;
               set_response (hit_response cached)
       end)
      (fun error => when dev (console_write (WarnReadFailed routePath error))).

(** Write a payload to the cache in the background. The source starts the
    write here and hands its promise to [event.waitUntil]; when the write
    lands in the store is up to the store. The model records the started
    write in the queue of the event and lets it land when the queue is
    settled, the latest moment it can: what is stated about the store of
    a request that started a write is stated after [settle]. *)
Definition cachePayload (routePath : string) (payload : PayloadResponse) : M unit :=
  let cacheKey := getCacheKey routePath in
  now ← Date_now;
  let entry :=
    {| cp_body := pr_body payload;
       cp_statusCode := pr_statusCode payload;
       cp_headers := pr_headers payload;
       cp_cachedAt := now;
       cp_buildId := buildId |} in
  event_waitUntil (mkDeferredWrite cacheKey entry routePath);;
  when dev (console_write (LogCached routePath)).

(** [!response.statusCode || response.statusCode >= 400] *)
Definition error_or_unknown (r : NuxtRenderResponse) : bool :=
  match statusCode r with
  | None => true
  | Some n => (n =? 0) || (400 <=? n)
  end.

(** [response.headers?.['content-type']?.includes('text/html')], as a
    condition. *)
Definition isHtmlResponse (r : NuxtRenderResponse) : bool :=
  match headers r with
  | None => false
  | Some h =>
      match h !! "content-type" with
      | None => false
      | Some v => Js.includes "text/html" v
      end
  end.

(** [render:response]: cache payloads after rendering. *)
Definition render_response (r : NuxtRenderResponse) : M unit :=
  if error_or_unknown r then mret tt
  else
    c ← get_ctx;
    let isPayloadRequest := PAYLOAD_URL_RE_test (path (event c)) in
    if isPayloadRequest then
      match body r with
      | BodyOther => mret tt
      | BodyString b =>
          let routePath := getRouteFromPayloadUrl (path (event c)) in
          cachePayload routePath
            {| pr_body := b;
               pr_statusCode := default 200 (statusCode r);
               pr_headers :=
                 <["content-type" := "application/json;charset=utf-8"]>
                   (<["x-powered-by" := "Nuxt"]> ∅) |}
      end
    else if isHtmlResponse r && isISRRoute (event c) then
      match _cachedPayloadResponse (context (event c)) with
      | None => mret tt
      | Some cachedPayload =>
          let routePath := htmlRoutePath (path (event c)) in
          cachePayload routePath cachedPayload;;
          set_cachedPayloadResponse None
      end
    else mret tt.

(** One promise of the [waitUntil] queue runs to completion: the write,
    with its rejection handler. *)
Definition settle_write (d : DeferredWrite) : M unit :=
  try_catch
    (storage_setItem (dw_key d) (dw_entry d))
    (fun error => when dev (console_write (WarnWriteFailed (dw_routePath d) error))).

Fixpoint settle_writes (ds : list DeferredWrite) : M unit :=
  match ds with
  | [] => mret tt
  | d :: ds' => settle_write d;; settle_writes ds'
  end.

(** The runtime lets every pending promise of the event finish. *)
Definition settle : M unit :=
  c ← get_ctx;
  let e := event c in
  set_ctx (mkRenderContext (mkEvent (path e) (context e) []) (response c));;
  settle_writes (pending e).

End NitroPlugin.

(** ** The Nuxt server plugin *)

(** [ssrContext.event] refers to the event of the request in flight, the one
    the render context of the world holds. *)
Inductive EventRef : Type := CurrentEvent.

Section NuxtPlugin.

(** Values of the payload data, opaque to the plugin. *)
Variable Value : Type.
(** The reducer table [ssrContext['~payloadReducers']]. *)
Variable Reducers : Type.
(** The empty table [{}]. *)
Variable no_reducers : Reducers.

Record NuxtPayload : Type := mkPayload {
  payload_error : option Error;
  data : option (gmap string Value);
  prerenderedAt : option Z
}.

(** The object [{ data, prerenderedAt }] given to [stringify]. *)
Record SplitPayload : Type := mkSplitPayload {
  sp_data : gmap string Value;
  sp_prerenderedAt : option Z
}.

Record NuxtSSRContext : Type := mkSSRContext {
  noSSR : bool;
  ssr_error : option Error;
  payload : option NuxtPayload;
  payloadReducers : option Reducers;
  ssr_event : option EventRef
}.

(** [stringify] of devalue: a string, or an exception. *)
Variable stringify : SplitPayload -> Reducers -> Error + string.
(** [import.meta.dev] *)
Variable dev : bool.

Definition call_stringify (p : SplitPayload) (r : Reducers) : M string :=
  match stringify p r with
  | inl e => throw e
  | inr s => mret s
  end.

(** [ssrContext.noSSR || ssrContext.error || ssrContext.payload?.error] *)
Definition error_or_noSSR (c : NuxtSSRContext) : bool :=
  noSSR c
  || bool_decide (is_Some (ssr_error c))
  || bool_decide (is_Some (payload c ≫= payload_error)).

(** [app:rendered]: serialise the payload and stash it on the event
    context. *)
Definition app_rendered (ssrContext : option NuxtSSRContext) : M unit :=
  match ssrContext with
  | None => mret tt
  | Some ssrContext =>
      if error_or_noSSR ssrContext then mret tt
      else
        match payload ssrContext ≫= data with
        | None => mret tt
        | Some payloadData =>
            if (size payloadData =? 0)%nat then mret tt
            else
              try_catch
                (pl ← match payload ssrContext with
                      | Some pl => mret pl
                      | None => throw "TypeError"
                      end;
                 d ← match data pl with
                     | Some d => mret d
                     | None => throw "TypeError"
                     end;
                 let split := mkSplitPayload d (prerenderedAt pl) in
                 let reducers := default no_reducers (payloadReducers ssrContext) in
                 body ← call_stringify split reducers;
                 match ssr_event ssrContext with
                 | Some CurrentEvent =>
                     set_cachedPayloadResponse
                       (Some {| pr_body := body;
                                pr_statusCode := 200;
                                pr_headers :=
                                  <["content-type" := "application/json;charset=utf-8"]>
                                    (<["x-powered-by" := "Nuxt"]> ∅) |})
                 | None => mret tt
                 end)
                (fun error => when dev (console_write (WarnSerializeFailed error)))
        end
  end.

(** The plugin's [setup]: on the client nothing is registered. *)
Definition setup (client : bool) : list (option NuxtSSRContext -> M unit) :=
  if client then [] else [app_rendered].

End NuxtPlugin.

Arguments mkPayload {Value} _ _ _.
Arguments payload_error {Value} _.
Arguments data {Value} _.
Arguments prerenderedAt {Value} _.
Arguments mkSplitPayload {Value} _ _.
Arguments sp_data {Value} _.
Arguments sp_prerenderedAt {Value} _.
Arguments mkSSRContext {Value Reducers} _ _ _ _ _.
Arguments noSSR {Value Reducers} _.
Arguments ssr_error {Value Reducers} _.
Arguments payload {Value Reducers} _.
Arguments payloadReducers {Value Reducers} _.
Arguments ssr_event {Value Reducers} _.
Arguments error_or_noSSR {Value Reducers} _.
Arguments app_rendered {Value Reducers} no_reducers stringify dev ssrContext _.

(** ** One request through the pipeline *)

Section Pipeline.

Variable buildId : string.
Variable dev : bool.
Variable getRouteRules : H3Event -> NitroRouteRules.
Context {Value Reducers : Type}.
Variable no_reducers : Reducers.
Variable stringify : SplitPayload Value -> Reducers -> Error + string.

(** What the rendering engine produces for an event: the SSR context the
    [app:rendered] hook sees and the response. *)
Record Rendered : Type := mkRendered {
  rendered_ssrContext : option (@NuxtSSRContext Value Reducers);
  rendered_response : NuxtRenderResponse
}.

(** The rendering engine, a black box. *)
Variable renderer : H3Event -> Rendered.

(** Modelled from the spec: the render function of the host. The engine
    runs, [app:rendered] fires once, the response comes back. *)
Definition render : M NuxtRenderResponse :=
  c ← get_ctx;
  let r := renderer (event c) in
  app_rendered no_reducers stringify dev (rendered_ssrContext r);;
  mret (rendered_response r).

(** Modelled from the spec: the host's render handler is not among the
    sources. This is its path on a miss, as the system overview has it: the
    render function runs, its response becomes the response of the context,
    and the post-render hook sees it before it is returned. *)
Definition render_and_cache : M NuxtRenderResponse :=
  r ← render;
  set_response r;;
  render_response buildId dev getRouteRules r;;
  mret r.

(** Modelled from the spec: the host's render handler as a whole. The
    pre-render hook runs; when it has set a response, that response is
    returned and nothing is rendered; otherwise the request takes the path
    of a miss. *)
Definition handle_request : M NuxtRenderResponse :=
  render_before buildId dev;;
  c ← get_ctx;
  match response c with
  | Some r => mret r
  | None => render_and_cache
  end.

(** A request as it enters the pipeline: nothing stashed, no response, no
    pending work. *)
Definition incoming (st : Storage) (now : Z) (p : string) : World :=
  {| storage := st;
     clock := now;
     ctx := mkRenderContext (mkEvent p (mkContext None) []) None;
     console := [] |}.

End Pipeline.

Arguments Rendered : clear implicits.

(** ** Vocabulary of the properties *)

(** The artifact slot of the request in flight. *)
Definition slot (w : World) : option PayloadResponse :=
  _cachedPayloadResponse (context (event (ctx w))).

Definition request_path (w : World) : string := path (event (ctx w)).

(** The writes the event is still waiting for. *)
Definition pending_writes (w : World) : list DeferredWrite :=
  pending (event (ctx w)).

(** The key a data-only request is looked up under. *)
Definition lookup_key (buildId : string) (w : World) : string :=
  getCacheKey buildId (getRouteFromPayloadUrl (request_path w)).

(** The world a cache hit leaves behind. *)
Definition after_hit (buildId : string) (dev : bool) (cached : CachedPayload) (w : World) : World :=
  let routePath := getRouteFromPayloadUrl (request_path w) in
  {| storage := storage w;
     clock := clock w;
     ctx := mkRenderContext (event (ctx w)) (Some (hit_response cached));
     console :=
       if dev
       then console w ++ [LogHit routePath (age_seconds (clock w) (cp_cachedAt cached))]
       else console w |}.

(** The headers both plugins attach to a payload. *)
Definition payload_headers : gmap string string :=
  <["content-type" := "application/json;charset=utf-8"]>
    (<["x-powered-by" := "Nuxt"]> ∅).

(** The entry [cachePayload] builds from a payload at time [now]. *)
Definition entry_of (buildId : string) (now : Z) (payload : PayloadResponse) : CachedPayload :=
  {| cp_body := pr_body payload;
     cp_statusCode := pr_statusCode payload;
     cp_headers := pr_headers payload;
     cp_cachedAt := now;
     cp_buildId := buildId |}.

(** The write [cachePayload] hands to [event.waitUntil]. *)
Definition scheduled (buildId routePath : string) (payload : PayloadResponse) (w : World) : DeferredWrite :=
  mkDeferredWrite (getCacheKey buildId routePath)
    (entry_of buildId (clock w) payload) routePath.

(** The world [cachePayload] leaves behind. *)
Definition after_cachePayload (buildId : string) (dev : bool) (routePath : string)
    (payload : PayloadResponse) (w : World) : World :=
  let c := ctx w in
  let e := event c in
  {| storage := storage w;
     clock := clock w;
     ctx := mkRenderContext
              (mkEvent (path e) (context e)
                 (pending e ++ [scheduled buildId routePath payload w]))
              (response c);
     console := if dev then console w ++ [LogCached routePath] else console w |}.

(** The world with the artifact slot set to [v]. *)
Definition with_slot (v : option PayloadResponse) (w : World) : World :=
  let c := ctx w in
  let e := event c in
  {| storage := storage w;
     clock := clock w;
     ctx := mkRenderContext (mkEvent (path e) (mkContext v) (pending e)) (response c);
     console := console w |}.

(** The world once one deferred write has run to completion. *)
Definition after_write (dev : bool) (d : DeferredWrite) (w : World) : World :=
  let st := storage w in
  match write_error st (dw_key d) with
  | Some e =>
      {| storage := st; clock := clock w; ctx := ctx w;
         console :=
           if dev then console w ++ [WarnWriteFailed (dw_routePath d) e]
           else console w |}
  | None =>
      {| storage := mkStorage (<[dw_key d := dw_entry d]> (items st))
                      (read_error st) (write_error st);
         clock := clock w; ctx := ctx w; console := console w |}
  end.

(** The artifact the serialiser stashes for a serialised [body]. *)
Definition artifact (body : string) : PayloadResponse :=
  {| pr_body := body; pr_statusCode := 200; pr_headers := payload_headers |}.

Section SerializerVocabulary.

Context {Value Reducers : Type}.
Variable no_reducers : Reducers.
Variable stringify : SplitPayload Value -> Reducers -> Error + string.

(** When the serialiser stashes [body]: server rendering was not disabled,
    the render ended in no error state, the data has a key, and [body] is
    the serialisation of [{ data, prerenderedAt }] with the reducer table. *)
Definition stash_conditions (c : @NuxtSSRContext Value Reducers) (body : string) : Prop :=
  noSSR c = false /\
  ssr_error c = None /\
  payload c ≫= payload_error = None /\
  exists pl d,
    payload c = Some pl /\ data pl = Some d /\ (0 < size d)%nat /\
    stringify (mkSplitPayload d (prerenderedAt pl))
      (default no_reducers (payloadReducers c)) = inr body.

(** The world the [app:rendered] hook leaves behind when it stashes
    [body]. *)
Definition after_stash (body : string) (w : World) : World :=
  with_slot (Some (artifact body)) w.

End SerializerVocabulary.

(** The world a rejected lookup leaves behind. *)
Definition after_read_error (dev : bool) (e : Error) (w : World) : World :=
  {| storage := storage w; clock := clock w; ctx := ctx w;
     console :=
       if dev
       then console w ++ [WarnReadFailed (getRouteFromPayloadUrl (request_path w)) e]
       else console w |}.

(** What an entry persisted from an HTML render records, and what a later
    hit on it replays. *)
Definition records_200 (d : DeferredWrite) : Prop :=
  cp_statusCode (dw_entry d) = 200 /\
  cp_headers (dw_entry d) = payload_headers /\
  statusCode (hit_response (dw_entry d)) = Some 200.

(** What may follow the literal suffix of a data-only URL: nothing, or a
    query without line terminators. *)
Definition query_tail (rest : string) : Prop :=
  rest = "" \/ exists q, rest = String "?" q /\ Js.dot_star_to_end q = true.

(** The artifact as the specification words it, with a space after the
    semicolon of the content type. *)
Definition spec_artifact (body : string) : PayloadResponse :=
  {| pr_body := body;
     pr_statusCode := 200;
     pr_headers :=
       <["content-type" := "application/json; charset=utf-8"]>
         (<["x-powered-by" := "Nuxt"]> ∅) |}.

(** ** Sample requests *)

Module Sample.

(** A store that answers every read and accepts every write. *)
Definition healthy (m : gmap string CachedPayload) : Storage :=
  mkStorage m (fun _ => None) (fun _ => None).

(** A store that cannot be reached. *)
Definition unreachable (m : gmap string CachedPayload) : Storage :=
  mkStorage m (fun _ => Some "ECONNREFUSED") (fun _ => Some "ECONNREFUSED").

Definition entry (cachedAt : Z) (build : string) : CachedPayload :=
  {| cp_body := "[1]"; cp_statusCode := 200; cp_headers := payload_headers;
     cp_cachedAt := cachedAt; cp_buildId := build |}.

(** The moment the sample entries were written, in ms. *)
Definition t0 : Z := 1700000000000.

(** A data-only request for [/a/b], [age] ms after an entry of build
    [build] was stored under the key of build [B1]. *)
Definition data_request (build : string) (age : Z) : World :=
  incoming (healthy {[ "B1:/a/b" := entry t0 build ]}) (t0 + age)
    "/a/b/_payload.json?x=1".

(** The same request against a store that cannot be reached. *)
Definition data_request_offline : World :=
  incoming (unreachable ∅) t0 "/a/b/_payload.json?x=1".

(** An HTML request for [/pkg/vue/], with or without a stashed artifact. *)
Definition html_request (stashed : option PayloadResponse) : World :=
  with_slot stashed (incoming (healthy ∅) t0 "/pkg/vue/").

Definition isr_rules (_ : H3Event) : NitroRouteRules :=
  mkRules (Some (IsrSeconds 60)) None.

Definition html_headers : gmap string string :=
  {[ "content-type" := "text/html;charset=utf-8" ]}.

Definition html_response (status : Z) : NuxtRenderResponse :=
  {| body := BodyString "<!DOCTYPE html>"; statusCode := Some status;
     statusMessage := None; headers := Some html_headers |}.

Definition json_response (b : Body) (status : option Z) : NuxtRenderResponse :=
  {| body := b; statusCode := status; statusMessage := None;
     headers := Some payload_headers |}.

(** A serialiser that rejects data with the key [cyclic]. *)
Definition sample_stringify (p : SplitPayload Z) (_ : unit) : Error + string :=
  match sp_data p !! "cyclic" with
  | Some _ => inl "DevalueError"
  | None => inr "[1]"
  end.

(** The SSR context of a finished render with one data key. *)
Definition rendered_ok : NuxtSSRContext Z unit :=
  mkSSRContext false None
    (Some (mkPayload None (Some {[ "pkg" := 1 ]}) None))
    None (Some CurrentEvent).

(** The SSR context of a finished render whose data cannot be
    serialised. *)
Definition rendered_cyclic : NuxtSSRContext Z unit :=
  mkSSRContext false None
    (Some (mkPayload None (Some {[ "cyclic" := 1 ]}) None))
    None (Some CurrentEvent).

Definition sample_renderer (_ : H3Event) : Rendered Z unit :=
  mkRendered (Some rendered_ok) (html_response 200).

End Sample.

(** ** The registry route *)

Module Registry.

(** What can be thrown, as far as the [catch] clause of the handler tells
    values apart: an error built by [createError], another object with the
    names of the properties the [in] operator finds on it, or a value that
    is no object (a primitive, a function) or is falsy ([null],
    [undefined]). *)
Inductive JsError : Type :=
| H3Error (status : Z) (message : string)
| ObjectError (props : gset string)
| OtherError (text : string).

(** [createError({ statusCode, message })] *)
Definition createError (status : Z) (message : string) : JsError :=
  H3Error status message.

(** [error && typeof error === 'object' && 'statusCode' in error] *)
Definition carries_status (error : JsError) : bool :=
  match error with
  | H3Error _ _ => true
  | ObjectError props => bool_decide ("statusCode" ∈ props)
  | OtherError _ => false
  end.

Section Handler.

(** What the registry answers. *)
Variable Package : Type.
(** [assertValidPackageName]: returns, or throws. *)
Variable assertValidPackageName : string -> option JsError.
(** [fetchNpmPackage]: resolves, or rejects. *)
Variable fetchNpmPackage : string -> JsError + Package.

(** The event handler, given what [getRouterParam(event, 'pkg')] returns. *)
Definition handler (param : option string) : JsError + Package :=
  match param with
  | None | Some EmptyString =>
      inl (createError 400 "Package name is required")
  | Some pkg =>
      match assertValidPackageName pkg with
      | Some e => inl e
      | None =>
          match fetchNpmPackage pkg with
          | inr package => inr package
          | inl error =>
              if carries_status error then inl error
              else inl (createError 502 "Failed to fetch package from npm registry")
          end
      end
  end.

(** [getKey]: the key the cached handler files an answer under. *)
Definition getKey (param : option string) : string := default "" param.

End Handler.

End Registry.

(** ** The hydration fix of the client *)

Module HydrationFix.

(** What is hooked once on [app:suspense:resolve]. *)
Inductive Callback : Type := RefreshNuxtData.

Section Setup.

Variable Value : Type.

Record NuxtApp : Type := mkNuxtApp {
  payload_data : option (gmap string Value);
  payload_serverRendered : bool;
  isHydrating : bool;
  suspense_resolve_once : list Callback
}.

(** The plugin's [setup]. *)
Definition setup (app : NuxtApp) : NuxtApp :=
  let data := default ∅ (payload_data app) in
  if isHydrating app && payload_serverRendered app && (size data =? 0)%nat
  then mkNuxtApp (Some data) (payload_serverRendered app) (isHydrating app)
         (suspense_resolve_once app ++ [RefreshNuxtData])
  else mkNuxtApp (Some data) (payload_serverRendered app) (isHydrating app)
         (suspense_resolve_once app).

End Setup.

Arguments mkNuxtApp {Value} _ _ _ _.
Arguments payload_data {Value} _.
Arguments payload_serverRendered {Value} _.
Arguments isHydrating {Value} _.
Arguments suspense_resolve_once {Value} _.
Arguments setup {Value} _.

End HydrationFix.

(** ** The logger of the connector *)

Module Logger.

(** What reaches the terminal. *)
Inductive TermEvent : Type :=
| Intro (title : string)
| Step (message : string)
| Success (message : string)
| Failure (message : string)
| Warn (message : string)
| Info (message : string)
| Note (message title : string).

(** The module: its flag and the terminal it writes to. *)
Record State : Type := mkState {
  isInitialized : bool;
  terminal : list TermEvent
}.

(** The module as loaded. *)
Definition loaded : State := mkState false [].

Definition emit (e : TermEvent) (s : State) : State :=
  mkState (isInitialized s) (terminal s ++ [e]).

Section Functions.

(** [styleText] of [node:util]. *)
Variable styleText : list string -> string -> string.
(** How a number prints in a template literal. *)
Variable number_text : Z -> string.

(** Initialize the logger with intro message. *)
Definition initLogger (s : State) : State :=
  if isInitialized s then s
  else mkState true
         (terminal s ++ [Intro (styleText ["bgCyan"; "black"] " npmx connector ")]).

Definition logCommand (command : string) : State -> State :=
  emit (Step (styleText ["dim"] "$ " ++ styleText ["cyan"] command)).

Definition logSuccess (message : string) : State -> State :=
  emit (Success (styleText ["green"] message)).

Definition logError (message : string) : State -> State :=
  emit (Failure (styleText ["red"] message)).

Definition logWarning (message : string) : State -> State :=
  emit (Warn (styleText ["yellow"] message)).

Definition logInfo (message : string) : State -> State :=
  emit (Info message).

Definition newline : string := String "010" EmptyString.

(** Show the connection token in a box. *)
Definition showToken (token : string) (port : Z) (frontendUrl : string) : State -> State :=
  let connectUrl := frontendUrl ++ "?token=" ++ token ++ "&port=" ++ number_text port in
  emit (Note
          (("Open: " ++ styleText ["bold"; "underline"; "cyan"] connectUrl)
             ++ newline ++ "" ++ newline
             ++ styleText ["dim"] ("Or paste token manually: " ++ token))
          "Click to connect").

(** A call of one of the exported functions. *)
Inductive Call : Type :=
| CallInitLogger
| CallLogCommand (command : string)
| CallLogSuccess (message : string)
| CallLogError (message : string)
| CallLogWarning (message : string)
| CallLogInfo (message : string)
| CallShowToken (token : string) (port : Z) (frontendUrl : string).

Definition call (c : Call) : State -> State :=
  match c with
  | CallInitLogger => initLogger
  | CallLogCommand command => logCommand command
  | CallLogSuccess message => logSuccess message
  | CallLogError message => logError message
  | CallLogWarning message => logWarning message
  | CallLogInfo message => logInfo message
  | CallShowToken token port frontendUrl => showToken token port frontendUrl
  end.

(** A run of calls, in order. *)
Definition calls (cs : list Call) (s : State) : State :=
  fold_left (fun s c => call c s) cs s.

End Functions.

Definition is_intro (e : TermEvent) : bool :=
  match e with
  | Intro _ => true
  | _ => false
  end.

Definition is_init (c : Call) : bool :=
  match c with
  | CallInitLogger => true
  | _ => false
  end.

(** How many banners the terminal shows. *)
Definition banners (s : State) : nat :=
  length (List.filter is_intro (terminal s)).

End Logger.

(** ** Further vocabulary *)

(** The entry the last write of key [k] in a queue carries, if any. *)
Fixpoint last_write (k : string) (ds : list DeferredWrite) : option CachedPayload :=
  match ds with
  | [] => None
  | d :: ds' =>
      match last_write k ds' with
      | Some e => Some e
      | None => if String.eqb (dw_key d) k then Some (dw_entry d) else None
      end
  end.

(** A write as [cachePayload] of build [buildId] stamps it at time [now]. *)
Definition stamped (buildId : string) (now : Z) (d : DeferredWrite) : Prop :=
  dw_key d = getCacheKey buildId (dw_routePath d) /\
  cp_buildId (dw_entry d) = buildId /\
  cp_cachedAt (dw_entry d) = now.

(** A status code the post-render hook takes for a success. *)
Definition success_status (r : NuxtRenderResponse) : Prop :=
  exists n : Z, statusCode r = Some n /\ n <> 0 /\ n < 400.

(** The world a failed serialisation leaves behind. *)
Definition after_serialize_error (dev : bool) (e : Error) (w : World) : World :=
  {| storage := storage w; clock := clock w; ctx := ctx w;
     console :=
       if dev then console w ++ [WarnSerializeFailed e] else console w |}.

(** The response a later hit replays for a stored payload. *)
Definition replayed (payload : PayloadResponse) : NuxtRenderResponse :=
  {| body := BodyString (pr_body payload);
     statusCode := Some (pr_statusCode payload);
     statusMessage := Some "OK";
     headers := Some (pr_headers payload) |}.

(** * Properties *)

(** ** Strings *)

Module JsFacts.
Import Js.

Lemma append_cons (c : ascii) (a b : string) :
  String c a ++ b = String c (a ++ b).
Proof. reflexivity. Qed.

Lemma append_nil (b : string) : EmptyString ++ b = b.
Proof. reflexivity. Qed.

Lemma replace_query_without (s : string) :
  without "?" s = true -> replace_query s = s.
Proof.
  induction s as [|c s IH]; simpl; [reflexivity|].
  intros H. apply andb_prop in H as [Hc Hs].
  apply negb_true_iff in Hc. rewrite Hc. simpl. now rewrite IH.
Qed.

Lemma replace_query_app (p q : string) :
  without "?" p = true -> dot_star_to_end q = true ->
  replace_query (p ++ String "?" q) = p.
Proof.
  intros Hp Hq. induction p as [|c p IH]; simpl.
  - now rewrite Hq.
  - simpl in Hp. apply andb_prop in Hp as [Hc Hp].
    apply negb_true_iff in Hc. rewrite Hc. simpl. now rewrite IH.
Qed.

Lemma without_app (c : ascii) (a b : string) :
  without c (a ++ b) = without c a && without c b.
Proof.
  induction a as [|d a IH]; simpl; [reflexivity|].
  now rewrite IH, andb_assoc.
Qed.

Lemma lastIndexOf_from_app (c : ascii) (a b : string) (i found : Z) :
  lastIndexOf_from c (a ++ b) i found =
  lastIndexOf_from c b (i + Z.of_nat (String.length a)) (lastIndexOf_from c a i found).
Proof.
  revert i found. induction a as [|d a IH]; intros i found.
  - simpl. now rewrite Z.add_0_r.
  - rewrite append_cons. cbn [lastIndexOf_from String.length]. rewrite IH. f_equal. lia.
Qed.

Lemma substring_prefix (p t : string) :
  String.substring 0 (String.length p) (p ++ t) = p.
Proof.
  induction p as [|c p IH]; simpl.
  - now destruct t.
  - now rewrite IH.
Qed.

Lemma js_substring_prefix (p t : string) :
  substring (p ++ t) 0 (Z.of_nat (String.length p)) = p.
Proof.
  unfold substring, clamp.
  assert (Hlen : String.length (p ++ t) = (String.length p + String.length t)%nat).
  { induction p as [|c p IH]; simpl; [reflexivity | now rewrite IH]. }
  rewrite Hlen.
  replace (Z.max 0 (Z.min 0 _)) with 0 by lia.
  replace (Z.max 0 (Z.min (Z.of_nat (String.length p)) _))
    with (Z.of_nat (String.length p)) by lia.
  replace (Z.min 0 (Z.of_nat (String.length p))) with 0 by lia.
  replace (Z.max 0 (Z.of_nat (String.length p)) - 0) with (Z.of_nat (String.length p)) by lia.
  rewrite Nat2Z.id. apply substring_prefix.
Qed.

Lemma replace_trailing_slash_cons (c d : ascii) (s : string) :
  replace_trailing_slash (String c (String d s)) =
  String c (replace_trailing_slash (String d s)).
Proof. reflexivity. Qed.

Lemma replace_trailing_slash_snoc (p : string) :
  p <> EmptyString -> replace_trailing_slash (p ++ "/") = p.
Proof.
  induction p as [|c p IH]; [congruence|]. intros _.
  destruct p as [|d p].
  - simpl. destruct (Ascii.eqb c "/"); reflexivity.
  - rewrite !append_cons, replace_trailing_slash_cons.
    rewrite <- append_cons, IH by congruence. reflexivity.
Qed.

Lemma replace_trailing_slash_id (p : string) :
  ends_with "/" p = false -> replace_trailing_slash p = p.
Proof.
  induction p as [|c p IH]; [reflexivity|].
  destruct p as [|d p]; intros H.
  - simpl in *. now rewrite H.
  - rewrite replace_trailing_slash_cons, IH; [reflexivity | exact H].
Qed.

Lemma append_assoc (a b c : string) : (a ++ b) ++ c = a ++ (b ++ c).
Proof.
  induction a as [|x a IH]; [reflexivity|].
  now rewrite !append_cons, IH.
Qed.

Lemma strip_prefix_Some (p s r : string) :
  strip_prefix p s = Some r -> s = p ++ r.
Proof.
  revert s. induction p as [|a p IH]; intros s H.
  - simpl in H. now inversion H.
  - destruct s as [|b s]; simpl in H; [discriminate|].
    destruct (Ascii.eqb_spec a b) as [->|]; [|discriminate].
    rewrite append_cons. f_equal. now apply IH.
Qed.

End JsFacts.

(** ** Route paths *)

Section RoutePaths.
Import Js JsFacts.

Lemma payload_url_tail_inv (s : string) :
  payload_url_tail s = true ->
  exists rest, s = "/_payload.json" ++ rest /\ query_tail rest.
Proof.
  unfold payload_url_tail.
  destruct (strip_prefix "/_payload.json" s) as [r|] eqn:E; [|discriminate].
  apply strip_prefix_Some in E. intros H. exists r. split; [exact E|].
  destruct r as [|c q]; [now left|].
  apply andb_prop in H as [Hc Hq].
  apply Ascii.eqb_eq in Hc. subst c. right. now exists q.
Qed.

(** Every URL the pattern recognises is a prefix free of [?], the literal
    suffix, and an optional query. *)
Lemma PAYLOAD_URL_RE_test_inv (url : string) :
  PAYLOAD_URL_RE_test url = true ->
  exists p rest,
    url = p ++ "/_payload.json" ++ rest /\ without "?" p = true /\ query_tail rest.
Proof.
  induction url as [|c url IH]; simpl; intros H.
  - discriminate.
  - apply orb_prop in H as [H|H].
    + apply payload_url_tail_inv in H as (rest & E & Ht).
      exists "", rest. now rewrite append_nil.
    + apply andb_prop in H as [Hc H].
      destruct (IH H) as (p & rest & E & Hp & Ht).
      exists (String c p), rest. rewrite append_cons, <- E.
      repeat split; [|exact Ht]. simpl. now rewrite Hc, Hp.
Qed.

Lemma replace_query_payload_url (p rest : string) :
  without "?" p = true -> query_tail rest ->
  replace_query (p ++ "/_payload.json" ++ rest) = p ++ "/_payload.json".
Proof.
  intros Hp [->|(q & -> & Hq)].
  - change ("/_payload.json" ++ "") with "/_payload.json".
    apply replace_query_without. rewrite without_app, Hp. reflexivity.
  - change ("/_payload.json" ++ String "?" q)
      with ("/_payload.json" ++ (String "?" q)).
    rewrite <- append_assoc. apply replace_query_app; [|exact Hq].
    rewrite without_app, Hp. reflexivity.
Qed.

Lemma lastIndexOf_payload_suffix (p : string) :
  lastIndexOf "/" (p ++ "/_payload.json") = Z.of_nat (String.length p).
Proof.
  unfold lastIndexOf. rewrite lastIndexOf_from_app. reflexivity.
Qed.

(** The route path of a recognised data-only URL is what precedes the
    literal suffix, and [/] when nothing does. *)
Lemma getRouteFromPayloadUrl_payload (p rest : string) :
  without "?" p = true -> query_tail rest ->
  getRouteFromPayloadUrl (p ++ "/_payload.json" ++ rest) = or_else p "/".
Proof.
  intros Hp Ht. unfold getRouteFromPayloadUrl.
  rewrite replace_query_payload_url by assumption.
  now rewrite lastIndexOf_payload_suffix, js_substring_prefix.
Qed.

Lemma htmlRoutePath_plain (p : string) :
  without "?" p = true -> ends_with "/" p = false -> htmlRoutePath p = p.
Proof.
  intros Hp He. unfold htmlRoutePath. rewrite replace_query_without by exact Hp.
  destruct (String.eqb_spec p "/") as [->|_]; [discriminate|].
  now apply replace_trailing_slash_id.
Qed.

Lemma htmlRoutePath_trailing_slash (p : string) :
  p <> "" -> without "?" p = true -> htmlRoutePath (p ++ "/") = p.
Proof.
  intros Hne Hp. unfold htmlRoutePath.
  rewrite replace_query_without by (rewrite without_app, Hp; reflexivity).
  destruct (String.eqb_spec (p ++ "/") "/") as [E|_].
  - destruct p as [|c p]; [congruence|]. rewrite append_cons in E.
    destruct p; discriminate.
  - now apply replace_trailing_slash_snoc.
Qed.

(** C7: route-path derivation ignores the query and is normalised. The
    route path of a data-only URL with a query equals the one without it
    and is the part before the literal suffix ([/] when that part is
    empty); in particular [/a/b/_payload.json?x=1] and [/a/b/_payload.json]
    both give [/a/b], and [/] gives [/]. For an HTML request a path with
    one trailing slash gives the same route path as the path without it;
    [/a/b/] and [/a/b] both give [/a/b], and the root stays [/]. *)
Theorem route_path_derivation :
  (forall p q : string,
      without "?" p = true -> dot_star_to_end q = true ->
      getRouteFromPayloadUrl (p ++ "/_payload.json?" ++ q) =
        getRouteFromPayloadUrl (p ++ "/_payload.json")
      /\ getRouteFromPayloadUrl (p ++ "/_payload.json") = or_else p "/") /\
  getRouteFromPayloadUrl "/a/b/_payload.json?x=1" = "/a/b" /\
  getRouteFromPayloadUrl "/a/b/_payload.json" = "/a/b" /\
  getRouteFromPayloadUrl "/" = "/" /\
  (forall p : string,
      p <> "" -> without "?" p = true -> ends_with "/" p = false ->
      htmlRoutePath (p ++ "/") = htmlRoutePath p) /\
  htmlRoutePath "/a/b/" = "/a/b" /\
  htmlRoutePath "/a/b" = "/a/b" /\
  htmlRoutePath "/" = "/".
Proof.
  split; [|repeat split; try reflexivity].
  - intros p q Hp Hq.
    pose proof (getRouteFromPayloadUrl_payload p "" Hp (or_introl eq_refl)) as H0.
    pose proof (getRouteFromPayloadUrl_payload p (String "?" q) Hp
                  (or_intror (ex_intro _ q (conj eq_refl Hq)))) as H1.
    change ("/_payload.json" ++ "") with "/_payload.json" in H0.
    change ("/_payload.json" ++ String "?" q) with ("/_payload.json?" ++ q) in H1.
    split; congruence.
  - intros p Hne Hp He.
    now rewrite htmlRoutePath_trailing_slash, htmlRoutePath_plain.
Qed.

(** The two general statements at [/a/b] and the query [x=1]. *)
Lemma route_path_derivation_witness :
  getRouteFromPayloadUrl ("/a/b" ++ "/_payload.json?" ++ "x=1") =
    getRouteFromPayloadUrl ("/a/b" ++ "/_payload.json")
  /\ htmlRoutePath ("/a/b" ++ "/") = htmlRoutePath "/a/b".
Proof.
  destruct route_path_derivation as (Hq & _ & _ & _ & Hs & _).
  split.
  - apply (Hq "/a/b" "x=1"); reflexivity.
  - apply (Hs "/a/b"); [discriminate | reflexivity | reflexivity].
Defined.

End RoutePaths.

(** ** The pre-render hook *)

Ltac run_once :=
  unfold mbind, M_bind, mret, M_ret, try_catch, when, throw,
    set_response, event_waitUntil, set_cachedPayloadResponse,
    get_ctx, set_ctx, Date_now, console_write,
    storage_getItem, storage_setItem in *;
  cbn beta iota zeta in *.

Ltac run := run_once; repeat (progress run_once).

Section PreRender.

Variable buildId : string.
Variable dev : bool.

Lemma too_old_false_iff (now cachedAt : Z) :
  too_old (age_seconds now cachedAt) = false <->
  (age_seconds now cachedAt <= inject_Z (2 * PAYLOAD_CACHE_TTL))%Q.
Proof.
  unfold too_old. rewrite negb_false_iff, Qle_bool_iff. reflexivity.
Qed.

Lemma age_le_iff_ms (now cachedAt bound : Z) :
  (age_seconds now cachedAt <= inject_Z bound)%Q <-> now - cachedAt <= bound * 1000.
Proof.
  unfold age_seconds, Qle, Qdiv, Qmult, Qinv, inject_Z. simpl. lia.
Qed.

(** A request that is not data-only passes through untouched. *)
Lemma render_before_other (w : World) :
  PAYLOAD_URL_RE_test (request_path w) = false ->
  render_before buildId dev w = Returned tt w.
Proof.
  intros H. unfold render_before, request_path in *. run. now rewrite H.
Qed.

(** No entry under the key: the hook returns and changes nothing. *)
Lemma render_before_absent (w : World) :
  PAYLOAD_URL_RE_test (request_path w) = true ->
  read_error (storage w) (lookup_key buildId w) = None ->
  items (storage w) !! lookup_key buildId w = None ->
  render_before buildId dev w = Returned tt w.
Proof.
  intros Hp Hr Hi. unfold render_before, lookup_key, request_path in *. run.
  rewrite Hp. cbn. now rewrite Hr, Hi.
Qed.

(** An entry under the key: what the hook does with it. *)
Lemma render_before_found (w : World) (cached : CachedPayload) :
  PAYLOAD_URL_RE_test (request_path w) = true ->
  read_error (storage w) (lookup_key buildId w) = None ->
  items (storage w) !! lookup_key buildId w = Some cached ->
  render_before buildId dev w =
    if negb (String.eqb (cp_buildId cached) buildId) then Returned tt w
    else if too_old (age_seconds (clock w) (cp_cachedAt cached)) then Returned tt w
    else Returned tt (after_hit buildId dev cached w).
Proof.
  intros Hp Hr Hi. unfold render_before, lookup_key, request_path, after_hit in *. run.
  rewrite Hp. cbn. rewrite Hr, Hi.
  destruct (negb _); [reflexivity|].
  destruct (too_old _); [reflexivity|].
  destruct dev; reflexivity.
Qed.

(** The lookup is rejected: the handler logs in development mode and the
    hook returns. *)
Lemma render_before_read_error (w : World) (e : Error) :
  PAYLOAD_URL_RE_test (request_path w) = true ->
  read_error (storage w) (lookup_key buildId w) = Some e ->
  render_before buildId dev w = Returned tt (after_read_error dev e w).
Proof.
  intros Hp Hr.
  unfold render_before, lookup_key, after_read_error, request_path in *. run.
  rewrite Hp. cbn. rewrite Hr. destruct dev, w; reflexivity.
Qed.

(** The hook never throws. *)
Lemma render_before_returns (w : World) :
  returned (render_before buildId dev w) = true.
Proof.
  destruct (PAYLOAD_URL_RE_test (request_path w)) eqn:Hp.
  - destruct (read_error (storage w) (lookup_key buildId w)) as [e|] eqn:Hr.
    + now rewrite (render_before_read_error w e).
    + destruct (items (storage w) !! lookup_key buildId w) as [c|] eqn:Hi.
      * rewrite (render_before_found w c) by assumption.
        destruct (negb _); [reflexivity|]. now destruct (too_old _).
      * now rewrite render_before_absent.
  - now rewrite render_before_other.
Qed.


(** C2: on a data-only request, an entry whose build differs from the
    running one is not served, whatever its age: the hook returns and
    leaves the world, the response included, exactly as a miss does. *)
Theorem build_isolation (w : World) (cached : CachedPayload) :
  PAYLOAD_URL_RE_test (request_path w) = true ->
  read_error (storage w) (lookup_key buildId w) = None ->
  items (storage w) !! lookup_key buildId w = Some cached ->
  cp_buildId cached <> buildId ->
  render_before buildId dev w = Returned tt w /\
  response (ctx (final_world (render_before buildId dev w))) = response (ctx w).
Proof.
  intros Hp Hr Hi Hb.
  rewrite (render_before_found w cached) by assumption.
  apply String.eqb_neq in Hb. rewrite Hb. now split.
Qed.

End PreRender.

(** ** The post-render hook *)

Section PostRender.

Variable buildId : string.
Variable dev : bool.
Variable getRouteRules : H3Event -> NitroRouteRules.

Lemma cachePayload_run (routePath : string) (payload : PayloadResponse) (w : World) :
  cachePayload buildId dev routePath payload w =
    Returned tt (after_cachePayload buildId dev routePath payload w).
Proof.
  unfold cachePayload, after_cachePayload, scheduled, entry_of. run.
  destruct dev; reflexivity.
Qed.

(** Error and unknown responses are not looked at any further. *)
Lemma render_response_error (r : NuxtRenderResponse) (w : World) :
  error_or_unknown r = true ->
  render_response buildId dev getRouteRules r w = Returned tt w.
Proof.
  intros H. unfold render_response. now rewrite H.
Qed.

Lemma render_response_payload (r : NuxtRenderResponse) (w : World) :
  error_or_unknown r = false ->
  PAYLOAD_URL_RE_test (request_path w) = true ->
  render_response buildId dev getRouteRules r w =
    match body r with
    | BodyOther => Returned tt w
    | BodyString b =>
        Returned tt
          (after_cachePayload buildId dev (getRouteFromPayloadUrl (request_path w))
             {| pr_body := b;
                pr_statusCode := default 200 (statusCode r);
                pr_headers := payload_headers |} w)
    end.
Proof.
  intros He Hp. unfold render_response, request_path in *. rewrite He. run.
  rewrite Hp. destruct (body r); [|reflexivity].
  apply cachePayload_run.
Qed.

Lemma render_response_html (r : NuxtRenderResponse) (w : World) :
  error_or_unknown r = false ->
  PAYLOAD_URL_RE_test (request_path w) = false ->
  render_response buildId dev getRouteRules r w =
    if isHtmlResponse r && isISRRoute getRouteRules (event (ctx w)) then
      match slot w with
      | None => Returned tt w
      | Some cachedPayload =>
          Returned tt
            (with_slot None
               (after_cachePayload buildId dev (htmlRoutePath (request_path w))
                  cachedPayload w))
      end
    else Returned tt w.
Proof.
  intros He Hp. unfold render_response, request_path, slot in *. rewrite He. run.
  rewrite Hp. destruct (_ && _); [|reflexivity].
  destruct (_cachedPayloadResponse _) as [art|]; [|reflexivity].
  rewrite cachePayload_run. reflexivity.
Qed.

(** The hook never throws. *)
Lemma render_response_returns (r : NuxtRenderResponse) (w : World) :
  returned (render_response buildId dev getRouteRules r w) = true.
Proof.
  destruct (error_or_unknown r) eqn:He.
  - now rewrite render_response_error.
  - destruct (PAYLOAD_URL_RE_test (request_path w)) eqn:Hp.
    + rewrite render_response_payload by assumption. now destruct (body r).
    + rewrite render_response_html by assumption.
      destruct (_ && _); [|reflexivity]. now destruct (slot w).
Qed.

Lemma settle_write_run (d : DeferredWrite) (w : World) :
  settle_write dev d w = Returned tt (after_write dev d w).
Proof.
  unfold settle_write, after_write. run.
  destruct (write_error (storage w) (dw_key d)); [|reflexivity].
  destruct dev, w; reflexivity.
Qed.

Lemma settle_writes_run (ds : list DeferredWrite) (w : World) :
  settle_writes dev ds w =
    Returned tt (fold_left (fun w d => after_write dev d w) ds w).
Proof.
  revert w. induction ds as [|d ds IH]; intros w; [reflexivity|].
  cbn [settle_writes fold_left]. unfold mbind, M_bind.
  now rewrite settle_write_run, IH.
Qed.

Lemma after_write_write_error (d : DeferredWrite) (w : World) :
  write_error (storage (after_write dev d w)) = write_error (storage w).
Proof.
  unfold after_write. now destruct (write_error (storage w) (dw_key d)).
Qed.

Lemma after_writes_write_error (ds : list DeferredWrite) (w : World) :
  write_error (storage (fold_left (fun w d => after_write dev d w) ds w)) =
  write_error (storage w).
Proof.
  revert w. induction ds as [|d ds IH]; intros w; [reflexivity|].
  cbn [fold_left]. now rewrite IH, after_write_write_error.
Qed.

(** Once the queue is settled, the last write of a key the store accepts
    is what the store holds under that key. *)
Lemma settle_writes_last (ds : list DeferredWrite) (d : DeferredWrite) (w : World) :
  write_error (storage w) (dw_key d) = None ->
  items (storage (final_world (settle_writes dev (ds ++ [d]) w))) !! dw_key d =
    Some (dw_entry d).
Proof.
  intros Hw. rewrite settle_writes_run, fold_left_app. cbn [final_world fold_left].
  unfold after_write at 1. rewrite after_writes_write_error, Hw. cbn.
  apply lookup_insert_eq.
Qed.

Lemma settle_run (w : World) :
  settle dev w =
    settle_writes dev (pending_writes w)
      {| storage := storage w; clock := clock w;
         ctx := mkRenderContext
                  (mkEvent (request_path w) (context (event (ctx w))) [])
                  (response (ctx w));
         console := console w |}.
Proof. reflexivity. Qed.

(** C3: whatever the kind of request, a response without a status code or
    with a status code of 400 or more makes the post-render hook return at
    once: nothing is scheduled, the store and the rest of the world are as
    before. *)
Theorem no_caching_of_errors (r : NuxtRenderResponse) (w : World) :
  statusCode r = None \/ (exists n, statusCode r = Some n /\ 400 <= n) ->
  let after := final_world (render_response buildId dev getRouteRules r w) in
  render_response buildId dev getRouteRules r w = Returned tt w /\
  storage after = storage w /\
  pending_writes after = pending_writes w.
Proof.
  intros H after.
  assert (He : error_or_unknown r = true).
  { unfold error_or_unknown. destruct H as [->|(n & -> & Hn)]; [reflexivity|].
    apply orb_true_iff. right. now apply Z.leb_le. }
  unfold after. rewrite render_response_error by exact He. now repeat split.
Qed.

(** C6: for a data-only request with a successful response, a string body
    is persisted as an entry with that body, the response's status code
    and the fixed headers, stamped with the time and the build, under the
    key of the route path of the request: the write is the one the hook
    hands to [event.waitUntil] last, and once it has run to completion a
    store that accepts the write holds the entry under that key. A body
    that is not a string leaves the world untouched, and the hook returns
    either way. *)
Theorem data_only_response_cached (r : NuxtRenderResponse) (w : World) (n : Z) :
  PAYLOAD_URL_RE_test (request_path w) = true ->
  statusCode r = Some n -> n <> 0 -> n < 400 ->
  let routePath := getRouteFromPayloadUrl (request_path w) in
  let key := getCacheKey buildId routePath in
  let out := render_response buildId dev getRouteRules r w in
  returned out = true /\
  (forall b : string,
      body r = BodyString b ->
      let entry :=
        {| cp_body := b; cp_statusCode := n; cp_headers := payload_headers;
           cp_cachedAt := clock w; cp_buildId := buildId |} in
      pending_writes (final_world out) =
        (pending_writes w ++ [mkDeferredWrite key entry routePath])%list /\
      (write_error (storage w) key = None ->
       items (storage (final_world (settle dev (final_world out)))) !! key =
         Some entry)) /\
  (body r = BodyOther -> out = Returned tt w).
Proof.
  intros Hp Hs Hn0 Hn routePath key out.
  assert (He : error_or_unknown r = false).
  { unfold error_or_unknown. rewrite Hs. apply orb_false_iff.
    split; [now apply Z.eqb_neq | now apply Z.leb_gt]. }
  split; [apply render_response_returns|]. unfold out.
  rewrite render_response_payload by assumption. split.
  - intros b Hb. rewrite Hb, Hs. cbn [final_world default].
    split; [reflexivity|].
    intros Hw. rewrite settle_run.
    refine (settle_writes_last (pending_writes w)
              (mkDeferredWrite key _ routePath) _ _).
    exact Hw.
  - intros Hb. now rewrite Hb.
Qed.

(** C9: when the post-render hook consumes the stashed artifact (an HTML
    response for a route with ISR or cache rules, on a request that is not
    data-only, with an artifact in the slot), it schedules the write built
    from the artifact and leaves the slot of the request's context empty. *)
Theorem artifact_cleared_after_use (r : NuxtRenderResponse) (w : World) (art : PayloadResponse) :
  error_or_unknown r = false ->
  PAYLOAD_URL_RE_test (request_path w) = false ->
  isHtmlResponse r = true ->
  isISRRoute getRouteRules (event (ctx w)) = true ->
  slot w = Some art ->
  let out := render_response buildId dev getRouteRules r w in
  returned out = true /\
  pending_writes (final_world out) =
    (pending_writes w ++ [scheduled buildId (htmlRoutePath (request_path w)) art w])%list /\
  slot (final_world out) = None.
Proof.
  intros He Hp Hh Hi Hs out. unfold out.
  rewrite render_response_html by assumption. rewrite Hh, Hi, Hs.
  now repeat split.
Qed.

End PostRender.

(** ** The serialiser *)

Section Serializer.

Context {Value Reducers : Type}.
Variable no_reducers : Reducers.
Variable stringify : SplitPayload Value -> Reducers -> Error + string.
Variable dev : bool.

Local Abbreviation app_rendered' := (app_rendered no_reducers stringify dev).
Local Abbreviation stash_conditions' := (stash_conditions no_reducers stringify).

Lemma error_or_noSSR_false (c : @NuxtSSRContext Value Reducers) :
  error_or_noSSR c = false <->
  noSSR c = false /\ ssr_error c = None /\ payload c ≫= payload_error = None.
Proof.
  unfold error_or_noSSR. rewrite !orb_false_iff, !bool_decide_eq_false.
  rewrite <- !eq_None_not_Some. tauto.
Qed.

(** With the conditions met and a request event at hand, the hook stashes
    the artifact and nothing else changes. *)
Lemma app_rendered_stash (c : NuxtSSRContext Value Reducers) (body : string) (w : World) :
  stash_conditions' c body ->
  ssr_event c = Some CurrentEvent ->
  app_rendered' (Some c) w = Returned tt (after_stash body w).
Proof.
  intros (Hn & He & Hpe & pl & d & Hpl & Hd & Hsz & Hstr) Hev.
  assert (Hg : error_or_noSSR c = false) by now apply error_or_noSSR_false.
  unfold app_rendered, call_stringify. rewrite Hg, Hpl. cbn. rewrite Hd.
  destruct (Nat.eqb_spec (size d) 0) as [E|_]; [lia|].
  run. rewrite Hd, Hstr, Hev. reflexivity.
Qed.

(** The hook returns, and it either leaves the context as it was or has
    stashed the artifact of a body that meets the conditions. *)
Lemma app_rendered_cases (ssr : option (NuxtSSRContext Value Reducers)) (w : World) :
  exists w',
    app_rendered' ssr w = Returned tt w' /\
    storage w' = storage w /\ clock w' = clock w /\
    (ctx w' = ctx w \/
     exists c body,
       ssr = Some c /\ stash_conditions' c body /\ w' = after_stash body w).
Proof.
  destruct ssr as [c|]; [|exists w; now repeat split; try left].
  destruct (error_or_noSSR c) eqn:Hg.
  { exists w. unfold app_rendered. rewrite Hg. now repeat split; try left. }
  apply error_or_noSSR_false in Hg as Hg'.
  destruct (payload c) as [pl|] eqn:Hpl;
    [|exists w; unfold app_rendered; rewrite Hg, Hpl; now repeat split; try left].
  destruct (data pl) as [d|] eqn:Hd;
    [|exists w; unfold app_rendered; rewrite Hg, Hpl; cbn; rewrite Hd;
      now repeat split; try left].
  destruct (Nat.eqb_spec (size d) 0) as [E|E].
  { exists w. unfold app_rendered. rewrite Hg, Hpl. cbn. rewrite Hd.
    apply Nat.eqb_eq in E. rewrite E. now repeat split; try left. }
  destruct (stringify (mkSplitPayload d (prerenderedAt pl))
              (default no_reducers (payloadReducers c))) as [e|body] eqn:Hstr.
  - exists {| storage := storage w; clock := clock w; ctx := ctx w;
              console := if dev then console w ++ [WarnSerializeFailed e]
                         else console w |}.
    unfold app_rendered, call_stringify. rewrite Hg, Hpl. cbn. rewrite Hd.
    apply Nat.eqb_neq in E. rewrite E. run.
    rewrite Hd, Hstr. split; [destruct dev, w; reflexivity|].
    now repeat split; try left.
  - destruct (ssr_event c) as [[]|] eqn:Hev.
    + exists (after_stash body w).
      assert (Hc : stash_conditions' c body).
      { destruct Hg' as [H1 [H2 H3]]. unfold stash_conditions.
        rewrite Hpl. repeat split; try assumption.
        exists pl, d. repeat split; try assumption. lia. }
      split; [now apply app_rendered_stash|]. repeat split.
      right. now exists c, body.
    + exists w. unfold app_rendered, call_stringify. rewrite Hg, Hpl. cbn. rewrite Hd.
      apply Nat.eqb_neq in E. rewrite E. run.
      rewrite Hd, Hstr, Hev. now repeat split; try left.
Qed.

Lemma stash_conditions_functional (c : NuxtSSRContext Value Reducers) (b1 b2 : string) :
  stash_conditions' c b1 -> stash_conditions' c b2 -> b1 = b2.
Proof.
  intros (_ & _ & _ & pl & d & Hpl & Hd & _ & H1)
         (_ & _ & _ & pl' & d' & Hpl' & Hd' & _ & H2).
  congruence.
Qed.

(** C5, as the code has it: the hook never throws, whatever it is given;
    and for a render with its request event and an empty slot, an artifact
    is in the slot afterwards exactly when server rendering was not
    disabled, neither the SSR context nor the payload carries an error, the
    data has at least one key and serialisation succeeds; the artifact then
    has the serialisation of [{ data, prerenderedAt }] with the reducer
    table as body, status code 200 and the headers
    [content-type: application/json;charset=utf-8] and
    [x-powered-by: Nuxt]. *)
Theorem serializer_stash (c : NuxtSSRContext Value Reducers) (w : World) :
  ssr_event c = Some CurrentEvent ->
  slot w = None ->
  let out := app_rendered' (Some c) w in
  (forall ssr w0, returned (app_rendered' ssr w0) = true) /\
  (is_Some (slot (final_world out)) <-> exists body, stash_conditions' c body) /\
  (forall body,
      stash_conditions' c body ->
      slot (final_world out) =
        Some {| pr_body := body;
                pr_statusCode := 200;
                pr_headers :=
                  <["content-type" := "application/json;charset=utf-8"]>
                    (<["x-powered-by" := "Nuxt"]> ∅) |}).
Proof.
  intros Hev Hs out. split; [|split].
  - intros ssr w0. destruct (app_rendered_cases ssr w0) as (w' & -> & _).
    reflexivity.
  - split.
    + intros Hsome. unfold out in Hsome.
      destruct (app_rendered_cases (Some c) w)
        as (w' & Hrun & _ & _ & [Hctx|(c' & body & Hc & Hcond & _)]).
      * rewrite Hrun in Hsome. cbn in Hsome. unfold slot in Hsome, Hs.
        rewrite Hctx, Hs in Hsome. now destruct Hsome.
      * inversion Hc; subst c'. now exists body.
    + intros (body & Hcond). unfold out.
      rewrite (app_rendered_stash c body w Hcond Hev). now eexists.
  - intros body Hcond. unfold out.
    now rewrite (app_rendered_stash c body w Hcond Hev).
Qed.

End Serializer.

(** ** A request through the pipeline *)

Section EndToEnd.

Variable buildId : string.
Variable dev : bool.
Variable getRouteRules : H3Event -> NitroRouteRules.
Context {Value Reducers : Type}.
Variable no_reducers : Reducers.
Variable stringify : SplitPayload Value -> Reducers -> Error + string.

Local Abbreviation app_rendered' := (app_rendered no_reducers stringify dev).
Local Abbreviation stash_conditions' := (stash_conditions no_reducers stringify).
Local Abbreviation render_response' := (render_response buildId dev getRouteRules).
Local Abbreviation handle_request' :=
  (handle_request buildId dev getRouteRules no_reducers stringify).
Local Abbreviation render_and_cache' :=
  (render_and_cache buildId dev getRouteRules no_reducers stringify).

Lemma handle_request_run (renderer : H3Event -> Rendered Value Reducers)
    (w w0 : World) :
  render_before buildId dev w = Returned tt w0 ->
  handle_request' renderer w =
    match response (ctx w0) with
    | Some r => Returned r w0
    | None => render_and_cache' renderer w0
    end.
Proof.
  intros H. unfold handle_request. run. rewrite H.
  now destruct (response (ctx w0)).
Qed.

Lemma render_and_cache_returns (renderer : H3Event -> Rendered Value Reducers)
    (w : World) :
  exists w',
    render_and_cache' renderer w =
      Returned (rendered_response (renderer (event (ctx w)))) w'.
Proof.
  unfold render_and_cache, render. run.
  destruct (app_rendered_cases no_reducers stringify dev
              (rendered_ssrContext (renderer (event (ctx w)))) w)
    as (w1 & -> & _).
  match goal with
  | |- context [render_response ?b ?d ?g ?r ?x] =>
      pose proof (render_response_returns b d g r x) as Hret;
      destruct (render_response b d g r x) as [[] w2|]; [|discriminate]
  end.
  now exists w2.
Qed.

(** Serving a request never throws. *)
Lemma handle_request_returns (renderer : H3Event -> Rendered Value Reducers)
    (w : World) :
  returned (handle_request' renderer w) = true.
Proof.
  pose proof (render_before_returns buildId dev w) as Hb.
  destruct (render_before buildId dev w) as [[] w0|] eqn:E; [|discriminate].
  rewrite (handle_request_run renderer w w0 E).
  destruct (response (ctx w0)); [reflexivity|].
  now destruct (render_and_cache_returns renderer w0) as (w' & ->).
Qed.

(** C4: on a valid hit (a data-only request, an entry of the running build
    under its key, no older than the grace period) the pre-render hook
    sets the response to the entry's body, status code and headers (with
    the status message [OK]); the pipeline returns exactly that response,
    and it does so whatever the rendering engine would have produced: the
    engine is not run. *)
Theorem cache_hit_response (renderer : H3Event -> Rendered Value Reducers)
    (w : World) (cached : CachedPayload) :
  PAYLOAD_URL_RE_test (request_path w) = true ->
  read_error (storage w) (lookup_key buildId w) = None ->
  items (storage w) !! lookup_key buildId w = Some cached ->
  cp_buildId cached = buildId ->
  (age_seconds (clock w) (cp_cachedAt cached)
     <= inject_Z PAYLOAD_CACHE_STALE_TTL)%Q ->
  let delivered :=
    {| body := BodyString (cp_body cached);
       statusCode := Some (cp_statusCode cached);
       statusMessage := Some "OK";
       headers := Some (cp_headers cached) |} in
  response (ctx (final_world (render_before buildId dev w))) = Some delivered /\
  handle_request' renderer w = Returned delivered (after_hit buildId dev cached w) /\
  (forall renderer' : H3Event -> Rendered Value Reducers,
      handle_request' renderer' w = handle_request' renderer w).
Proof.
  intros Hp Hr Hi Hb Hage delivered.
  assert (Hrun : render_before buildId dev w =
                   Returned tt (after_hit buildId dev cached w)).
  { rewrite (render_before_found buildId dev w cached) by assumption.
    rewrite Hb, String.eqb_refl. cbn [negb].
    apply too_old_false_iff in Hage. now rewrite Hage. }
  split; [now rewrite Hrun|].
  split; [now rewrite (handle_request_run renderer _ _ Hrun)|].
  intros renderer'.
  now rewrite (handle_request_run renderer _ _ Hrun),
              (handle_request_run renderer' _ _ Hrun).
Qed.

(** C8: when the lookup of a data-only request is rejected, the pre-render
    hook catches the error and returns, leaving all but the development
    console as it was; the request is then rendered as on a miss, the
    client gets the response of the render, and nothing is thrown. *)
Theorem lookup_error_falls_through (renderer : H3Event -> Rendered Value Reducers)
    (w : World) (e : Error) :
  PAYLOAD_URL_RE_test (request_path w) = true ->
  read_error (storage w) (lookup_key buildId w) = Some e ->
  response (ctx w) = None ->
  let w0 := after_read_error dev e w in
  render_before buildId dev w = Returned tt w0 /\
  ctx w0 = ctx w /\ storage w0 = storage w /\
  handle_request' renderer w = render_and_cache' renderer w0 /\
  exists w',
    handle_request' renderer w =
      Returned (rendered_response (renderer (event (ctx w)))) w'.
Proof.
  intros Hp Hr Hn w0.
  pose proof (render_before_read_error buildId dev w e Hp Hr) as Hrun.
  assert (Hh : handle_request' renderer w = render_and_cache' renderer w0).
  { rewrite (handle_request_run renderer _ _ Hrun). cbn [after_read_error ctx].
    now rewrite Hn. }
  repeat split; try assumption.
  rewrite Hh. apply (render_and_cache_returns renderer w0).
Qed.

(** C10: take a request that is not data-only, with an empty slot when the
    render finishes. Whatever the status of the response, every write the
    post-render hook schedules after the serialiser has run carries status
    code 200 and the fixed headers, so a later hit on such an entry replays
    status 200. When the serialiser's conditions hold and the response is an
    HTML response of a route with ISR or cache rules, exactly one such
    write is scheduled, for the serialised body. *)
Theorem html_entry_records_200 (ssr : option (NuxtSSRContext Value Reducers))
    (r : NuxtRenderResponse) (w : World) :
  PAYLOAD_URL_RE_test (request_path w) = false ->
  slot w = None ->
  let w1 := final_world (app_rendered' ssr w) in
  let out := render_response' r w1 in
  returned out = true /\
  exists new : list DeferredWrite,
    pending_writes (final_world out) = (pending_writes w ++ new)%list /\
    Forall records_200 new /\
    (forall c body,
        ssr = Some c -> stash_conditions' c body ->
        ssr_event c = Some CurrentEvent ->
        error_or_unknown r = false -> isHtmlResponse r = true ->
        isISRRoute getRouteRules (event (ctx w1)) = true ->
        new = [mkDeferredWrite
                 (getCacheKey buildId (htmlRoutePath (request_path w)))
                 {| cp_body := body; cp_statusCode := 200;
                    cp_headers := payload_headers;
                    cp_cachedAt := clock w; cp_buildId := buildId |}
                 (htmlRoutePath (request_path w))]).
Proof.
  intros Hp Hs w1 out.
  split; [apply render_response_returns|].
  destruct (app_rendered_cases no_reducers stringify dev ssr w)
    as (w1' & Hrun & Hst & Hck & Hcases).
  assert (Hw1 : w1 = w1') by (unfold w1; now rewrite Hrun).
  clearbody w1. subst w1'. unfold out. clear out.
  destruct (error_or_unknown r) eqn:He.
  { rewrite render_response_error by exact He. exists []. cbn [final_world].
    destruct Hcases as [Hctx|(c & body & _ & _ & ->)].
    - unfold pending_writes. rewrite Hctx, app_nil_r.
      repeat split; [constructor | discriminate].
    - cbn. rewrite app_nil_r. repeat split; [constructor | discriminate]. }
  destruct Hcases as [Hctx|(c & body & Hssr & Hcond & ->)].
  - assert (Hp1 : PAYLOAD_URL_RE_test (request_path w1) = false)
      by (unfold request_path; now rewrite Hctx).
    assert (Hs1 : slot w1 = None) by (unfold slot in *; now rewrite Hctx).
    rewrite render_response_html by assumption. rewrite Hs1.
    exists []. replace (final_world _) with w1 by now destruct (_ && _).
    unfold pending_writes. rewrite Hctx, app_nil_r.
    repeat split; [constructor|].
    intros c body -> Hcond Hev _ _ _.
    rewrite (app_rendered_stash no_reducers stringify dev c body w Hcond Hev) in Hrun.
    inversion Hrun as [Hw]. rewrite <- Hw in Hs1. discriminate.
  - rewrite render_response_html by assumption.
    change (slot (after_stash body w)) with (Some (artifact body)).
    destruct (isHtmlResponse r && _) eqn:Hb.
    + eexists. cbn. split; [reflexivity|]. split.
      * repeat constructor.
      * intros c' body' Hc' Hcond' _ _ _ _. subst ssr. inversion Hc'; subst c'.
        now rewrite (stash_conditions_functional no_reducers stringify c _ _ Hcond Hcond').
    + exists []. cbn. rewrite app_nil_r. repeat split; [constructor|].
      intros c' body' _ _ _ _ Hh Hi. cbn in Hb, Hi. rewrite Hh, Hi in Hb. discriminate.
Qed.

End EndToEnd.

(** ** The theorems at the sample requests *)

Import Sample.


(** An entry of build [B1] found by build [B2], one millisecond old. *)
Lemma build_isolation_witness :
  render_before "B1" false (data_request "B0" 1) = Returned tt (data_request "B0" 1).
Proof.
  apply (build_isolation "B1" false (data_request "B0" 1) (entry t0 "B0"));
    [reflexivity | reflexivity | reflexivity | discriminate].
Defined.

(** A data-only render that ended with status 500. *)
Lemma no_caching_of_errors_witness :
  render_response "B1" false isr_rules
    (json_response (BodyString "[1]") (Some 500)) (data_request "B1" 0) =
  Returned tt (data_request "B1" 0).
Proof.
  apply (no_caching_of_errors "B1" false isr_rules
           (json_response (BodyString "[1]") (Some 500)) (data_request "B1" 0)).
  right. exists 500. split; [reflexivity | lia].
Defined.

(** A hit on an entry aged 30 s. *)
Lemma cache_hit_response_witness :
  handle_request "B1" false isr_rules tt sample_stringify sample_renderer
    (data_request "B1" 30000) =
  Returned (hit_response (entry t0 "B1"))
    (after_hit "B1" false (entry t0 "B1") (data_request "B1" 30000)).
Proof.
  apply (cache_hit_response "B1" false isr_rules tt sample_stringify sample_renderer
           (data_request "B1" 30000) (entry t0 "B1"));
    try reflexivity.
  apply age_le_iff_ms. vm_compute. discriminate.
Defined.

(** The render of [/pkg/vue/] with one data key. *)
Lemma serializer_stash_witness :
  slot (final_world
          (app_rendered tt sample_stringify false (Some rendered_ok) (html_request None))) =
    Some (artifact "[1]").
Proof.
  pose proof (serializer_stash tt sample_stringify false rendered_ok (html_request None)
                eq_refl eq_refl) as H.
  cbv zeta in H. destruct H as (_ & _ & H). apply H.
  repeat split. exists (mkPayload None (Some {[ "pkg" := 1 ]}) None), {[ "pkg" := 1 ]}.
  repeat split. vm_compute. lia.
Defined.

(** The stashed artifact is not the one the specification words: its
    content type has no space after the semicolon. *)
Lemma serializer_stash_spec_headers :
  stash_conditions tt sample_stringify rendered_ok "[1]" /\
  slot (final_world
          (app_rendered tt sample_stringify false (Some rendered_ok) (html_request None)))
    <> Some (spec_artifact "[1]").
Proof.
  split.
  - repeat split. exists (mkPayload None (Some {[ "pkg" := 1 ]}) None), {[ "pkg" := 1 ]}.
    repeat split. vm_compute. lia.
  - intros H.
    apply (f_equal (fun o => o ≫= fun a => pr_headers a !! "content-type")) in H.
    vm_compute in H. discriminate.
Defined.

(** A data-only render with a string body and status 200. *)
Lemma data_only_response_cached_witness :
  pending_writes
    (final_world
       (render_response "B1" false isr_rules
          (json_response (BodyString "[1]") (Some 200)) (data_request_offline))) =
  [mkDeferredWrite "B1:/a/b" (entry t0 "B1") "/a/b"].
Proof.
  pose proof (data_only_response_cached "B1" false isr_rules
                (json_response (BodyString "[1]") (Some 200)) data_request_offline 200
                eq_refl eq_refl) as H.
  cbv zeta in H. destruct H as (_ & H & _); [lia | lia |].
  exact (proj1 (H "[1]" eq_refl)).
Defined.

(** The lookup of a store that cannot be reached. *)
Lemma lookup_error_falls_through_witness :
  render_before "B1" false data_request_offline = Returned tt data_request_offline.
Proof.
  apply (lookup_error_falls_through "B1" false isr_rules tt sample_stringify
           sample_renderer data_request_offline "ECONNREFUSED");
    reflexivity.
Defined.

(** An HTML response for [/pkg/vue/] with an artifact in the slot. *)
Lemma artifact_cleared_after_use_witness :
  slot (final_world
          (render_response "B1" false isr_rules (html_response 200)
             (html_request (Some (artifact "[1]"))))) = None.
Proof.
  apply (artifact_cleared_after_use "B1" false isr_rules (html_response 200)
           (html_request (Some (artifact "[1]"))) (artifact "[1]"));
    reflexivity.
Defined.

(** A redirecting HTML response: the write still carries status 200. *)
Lemma html_entry_records_200_witness :
  exists new : list DeferredWrite,
    pending_writes
      (final_world
         (render_response "B1" false isr_rules (html_response 302)
            (final_world
               (app_rendered tt sample_stringify false (Some rendered_ok)
                  (html_request None))))) =
      (pending_writes (html_request None) ++ new)%list /\
    Forall records_200 new.
Proof.
  pose proof (html_entry_records_200 "B1" false isr_rules tt sample_stringify
                (Some rendered_ok) (html_response 302) (html_request None)
                eq_refl eq_refl) as H.
  cbv zeta in H. destruct H as (_ & new & Hp & Hf & _).
  exists new. split; assumption.
Defined.

(** The scenario of an ISR route: the HTML render of [/pkg/vue] stores the
    stashed payload under [B1:/pkg/vue]; a data-only request 59 s later is
    answered from the store with status 200; one 125 s later is rendered
    again and schedules a fresh write. *)
Example isr_route_scenario :
  let serve := handle_request "B1" false isr_rules tt sample_stringify sample_renderer in
  let st :=
    storage (final_world (settle false
      (final_world (serve (incoming (healthy ∅) t0 "/pkg/vue"))))) in
  items st !! "B1:/pkg/vue" = Some (entry t0 "B1") /\
  (let out := serve (incoming st (t0 + 59000) "/pkg/vue/_payload.json") in
   response (ctx (final_world out)) = Some (hit_response (entry t0 "B1"))) /\
  (let out := serve (incoming st (t0 + 125000) "/pkg/vue/_payload.json") in
   response (ctx (final_world out)) = Some (html_response 200) /\
   length (pending_writes (final_world out)) = 1%nat).
Proof. vm_compute. repeat split. Qed.

(** * Further properties of the plugins *)

(** ** Recognition of data-only URLs and the keys derived from them *)

Section UrlsAndKeys.
Import Js JsFacts.

Lemma strip_prefix_app (p r : string) : strip_prefix p (p ++ r) = Some r.
Proof.
  induction p as [|c p IH]; [reflexivity|].
  rewrite append_cons. cbn [strip_prefix]. now rewrite Ascii.eqb_refl.
Qed.

Lemma payload_url_tail_intro (rest : string) :
  query_tail rest -> payload_url_tail ("/_payload.json" ++ rest) = true.
Proof.
  intros H. unfold payload_url_tail. rewrite strip_prefix_app.
  destruct H as [->|(q & -> & Hq)]; [reflexivity|].
  now rewrite Ascii.eqb_refl.
Qed.

Lemma PAYLOAD_URL_RE_test_unfold (s : string) :
  PAYLOAD_URL_RE_test s =
    payload_url_tail s ||
    match s with
    | EmptyString => false
    | String c s' => negb (Ascii.eqb c "?") && PAYLOAD_URL_RE_test s'
    end.
Proof. destruct s; reflexivity. Qed.

Lemma PAYLOAD_URL_RE_test_intro (p rest : string) :
  without "?" p = true -> query_tail rest ->
  PAYLOAD_URL_RE_test (p ++ "/_payload.json" ++ rest) = true.
Proof.
  intros Hp Ht. induction p as [|c p IH].
  - rewrite append_nil, PAYLOAD_URL_RE_test_unfold.
    now rewrite payload_url_tail_intro.
  - rewrite append_cons, PAYLOAD_URL_RE_test_unfold.
    cbn [without] in Hp. apply andb_prop in Hp as [Hc Hp].
    rewrite Hc, (IH Hp). apply orb_true_r.
Qed.

Lemma htmlRoutePath_query (u q : string) :
  without "?" u = true -> dot_star_to_end q = true ->
  htmlRoutePath (u ++ String "?" q) = htmlRoutePath u.
Proof.
  intros Hu Hq. unfold htmlRoutePath.
  now rewrite replace_query_app, replace_query_without.
Qed.

Lemma append_inv_head (a x y : string) : a ++ x = a ++ y -> x = y.
Proof.
  induction a as [|c a IH]; [now rewrite !append_nil|].
  rewrite !append_cons. intros H. inversion H. now apply IH.
Qed.

Lemma split_at_first (c : ascii) (a b x y : string) :
  without c a = true -> without c b = true ->
  a ++ String c x = b ++ String c y -> a = b /\ x = y.
Proof.
  revert b. induction a as [|d a IH]; intros b Ha Hb H.
  - destruct b as [|e b]; [rewrite !append_nil in H; now inversion H|].
    rewrite append_nil, append_cons in H. inversion H; subst e.
    cbn [without] in Hb. now rewrite Ascii.eqb_refl in Hb.
  - destruct b as [|e b].
    + rewrite append_nil, append_cons in H. inversion H; subst d.
      cbn [without] in Ha. now rewrite Ascii.eqb_refl in Ha.
    + rewrite !append_cons in H. inversion H; subst e.
      cbn [without] in Ha, Hb.
      apply andb_prop in Ha as [_ Ha]. apply andb_prop in Hb as [_ Hb].
      destruct (IH b Ha Hb) as [-> ->]; [assumption | now split].
Qed.

(** X1: the pattern for data-only URLs accepts exactly the strings made of
    a prefix free of [?], the literal [/_payload.json], and then either
    nothing or a [?] followed by a query without line terminators. *)
Theorem payload_url_recognition (url : string) :
  PAYLOAD_URL_RE_test url = true <->
  exists p rest : string,
    url = p ++ "/_payload.json" ++ rest /\
    without "?" p = true /\ query_tail rest.
Proof.
  split.
  - apply PAYLOAD_URL_RE_test_inv.
  - intros (p & rest & -> & Hp & Ht). now apply PAYLOAD_URL_RE_test_intro.
Qed.

(** X2: for every URL the pattern accepts, the derived route path is never
    empty, contains no [?], and is what precedes the literal suffix of the
    URL ([/] when nothing precedes it). *)
Theorem recognised_url_route (url : string) :
  PAYLOAD_URL_RE_test url = true ->
  let route := getRouteFromPayloadUrl url in
  route <> "" /\
  without "?" route = true /\
  exists p rest : string,
    url = p ++ "/_payload.json" ++ rest /\ query_tail rest /\
    route = or_else p "/".
Proof.
  intros H route. apply PAYLOAD_URL_RE_test_inv in H as (p & rest & -> & Hp & Ht).
  assert (Hr : route = or_else p "/")
    by now apply getRouteFromPayloadUrl_payload.
  rewrite Hr. repeat split.
  - destruct p; discriminate.
  - destruct p; [reflexivity | exact Hp].
  - now exists p, rest.
Qed.

Lemma recognised_url_route_witness :
  getRouteFromPayloadUrl "/package/vue/v/3.4.0/_payload.json?abc123" <> "".
Proof.
  apply (recognised_url_route "/package/vue/v/3.4.0/_payload.json?abc123").
  reflexivity.
Defined.

(** X3: the HTML request of a route and its data-only companion derive the
    same route path, so the post-render hook of the one writes under the
    key the pre-render hook of the other reads. For a non-empty path [p]
    without [?] and without a trailing slash, the HTML paths [p], [p/],
    [p?q] and [p/?q] and the data-only URLs [p/_payload.json] and
    [p/_payload.json?q] all give [p]; at the root, [/], [/?q] and
    [/_payload.json?q] all give [/]. *)
Theorem html_and_payload_routes_agree (p q1 q2 : string) :
  p <> "" -> without "?" p = true -> ends_with "/" p = false ->
  dot_star_to_end q1 = true -> dot_star_to_end q2 = true ->
  (htmlRoutePath p = p /\
   htmlRoutePath (p ++ "/") = p /\
   htmlRoutePath (p ++ String "?" q1) = p /\
   htmlRoutePath ((p ++ "/") ++ String "?" q1) = p /\
   getRouteFromPayloadUrl (p ++ "/_payload.json") = p /\
   getRouteFromPayloadUrl (p ++ "/_payload.json" ++ String "?" q2) = p) /\
  (htmlRoutePath (String "/" (String "?" q1)) = "/" /\
   getRouteFromPayloadUrl ("/_payload.json" ++ String "?" q2) = "/").
Proof.
  intros Hne Hp He Hq1 Hq2.
  assert (Hps : without "?" (p ++ "/") = true)
    by (rewrite without_app, Hp; reflexivity).
  assert (Hqt : query_tail (String "?" q2)) by (right; now exists q2).
  split; repeat split.
  - now apply htmlRoutePath_plain.
  - now apply htmlRoutePath_trailing_slash.
  - rewrite htmlRoutePath_query by assumption. now apply htmlRoutePath_plain.
  - rewrite htmlRoutePath_query by assumption.
    now apply htmlRoutePath_trailing_slash.
  - pose proof (getRouteFromPayloadUrl_payload p "" Hp (or_introl eq_refl)) as H.
    change ("/_payload.json" ++ "") with "/_payload.json" in H.
    rewrite H. destruct p; [congruence | reflexivity].
  - rewrite (getRouteFromPayloadUrl_payload p _ Hp Hqt).
    destruct p; [congruence | reflexivity].
  - change (String "/" (String "?" q1)) with ("/" ++ String "?" q1).
    now rewrite htmlRoutePath_query.
  - exact (getRouteFromPayloadUrl_payload "" _ eq_refl Hqt).
Qed.

Lemma html_and_payload_routes_agree_witness :
  htmlRoutePath (("/pkg/vue" ++ "/") ++ String "?" "utm=1") = "/pkg/vue" /\
  getRouteFromPayloadUrl ("/pkg/vue" ++ "/_payload.json" ++ String "?" "abc") = "/pkg/vue".
Proof.
  destruct (html_and_payload_routes_agree "/pkg/vue" "utm=1" "abc")
    as ((_ & _ & _ & H1 & _ & H2) & _);
    [discriminate | reflexivity | reflexivity | reflexivity | reflexivity |].
  split; assumption.
Defined.

(** X4: cache keys do not collide. Under one build, two route paths with
    the same key are equal; and when neither build identifier contains a
    colon, equal keys mean the same build and the same route path. *)
Theorem cache_key_injective (b1 b2 r1 r2 : string) :
  (getCacheKey b1 r1 = getCacheKey b1 r2 -> r1 = r2) /\
  (without ":" b1 = true -> without ":" b2 = true ->
   getCacheKey b1 r1 = getCacheKey b2 r2 -> b1 = b2 /\ r1 = r2).
Proof.
  unfold getCacheKey. split.
  - intros H. apply append_inv_head in H. now apply (append_inv_head ":").
  - intros H1 H2 H. exact (split_at_first ":" b1 b2 r1 r2 H1 H2 H).
Qed.

Lemma cache_key_injective_witness :
  ("/a" = "/a") /\ ("B1" = "B1" /\ "/a" = "/a").
Proof.
  destruct (cache_key_injective "B1" "B1" "/a" "/a") as [H1 H2].
  split; [apply H1 | apply H2]; reflexivity.
Defined.

(** With a colon in a build identifier two builds can share a key. *)
Example cache_key_collision :
  getCacheKey "x" "/y:/a" = getCacheKey "x:/y" "/a".
Proof. reflexivity. Qed.

End UrlsAndKeys.

(** ** What the hooks of the Nitro plugin change, and what they leave *)

Section HookEffects.

Variable buildId : string.
Variable dev : bool.
Variable getRouteRules : H3Event -> NitroRouteRules.

Local Abbreviation render_response' := (render_response buildId dev getRouteRules).

Lemma error_or_unknown_false (r : NuxtRenderResponse) :
  error_or_unknown r = false <-> success_status r.
Proof.
  unfold error_or_unknown, success_status. split.
  - destruct (statusCode r) as [n|]; [|discriminate]. intros H.
    apply orb_false_iff in H as [H0 H4]. exists n.
    split; [reflexivity|]. split; [now apply Z.eqb_neq | now apply Z.leb_gt].
  - intros (n & -> & H0 & H4). apply orb_false_iff.
    split; [now apply Z.eqb_neq | now apply Z.leb_gt].
Qed.

(** The three ways the post-render hook can end. *)
Lemma render_response_cases (r : NuxtRenderResponse) (w : World) :
  render_response' r w = Returned tt w \/
  (error_or_unknown r = false /\
   PAYLOAD_URL_RE_test (request_path w) = true /\
   exists b, body r = BodyString b /\
     render_response' r w =
       Returned tt
         (after_cachePayload buildId dev (getRouteFromPayloadUrl (request_path w))
            {| pr_body := b; pr_statusCode := default 200 (statusCode r);
               pr_headers := payload_headers |} w)) \/
  (error_or_unknown r = false /\
   PAYLOAD_URL_RE_test (request_path w) = false /\
   isHtmlResponse r = true /\
   isISRRoute getRouteRules (event (ctx w)) = true /\
   exists art, slot w = Some art /\
     render_response' r w =
       Returned tt
         (with_slot None
            (after_cachePayload buildId dev (htmlRoutePath (request_path w)) art w))).
Proof.
  destruct (error_or_unknown r) eqn:He.
  { left. now apply render_response_error. }
  destruct (PAYLOAD_URL_RE_test (request_path w)) eqn:Hp.
  - rewrite render_response_payload by assumption.
    destruct (body r) as [b|] eqn:Hb; [|now left].
    right. left. repeat split. now exists b.
  - rewrite render_response_html by assumption.
    destruct (isHtmlResponse r) eqn:Hh; [|now left].
    destruct (isISRRoute getRouteRules (event (ctx w))) eqn:Hi; [|now left].
    destruct (slot w) as [art|] eqn:Hs; [|now left].
    right. right. repeat split. now exists art.
Qed.

Lemma after_write_read_error (d : DeferredWrite) (w : World) :
  read_error (storage (after_write dev d w)) = read_error (storage w).
Proof.
  unfold after_write. now destruct (write_error (storage w) (dw_key d)).
Qed.

Lemma after_write_ctx (d : DeferredWrite) (w : World) :
  ctx (after_write dev d w) = ctx w /\ clock (after_write dev d w) = clock w.
Proof.
  unfold after_write. now destruct (write_error (storage w) (dw_key d)).
Qed.

(** What the store holds under [k] once a queue of writes has run. *)
Lemma after_writes_lookup (ds : list DeferredWrite) (w : World) (k : string) :
  items (storage (fold_left (fun w d => after_write dev d w) ds w)) !! k =
    match write_error (storage w) k, last_write k ds with
    | None, Some e => Some e
    | _, _ => items (storage w) !! k
    end.
Proof.
  revert w. induction ds as [|d ds IH]; intros w.
  - cbn. now destruct (write_error (storage w) k).
  - cbn [fold_left last_write]. rewrite IH, after_write_write_error.
    destruct (last_write k ds) as [e|].
    { destruct (write_error (storage w) k) eqn:Hk; [|reflexivity].
      unfold after_write. destruct (write_error (storage w) (dw_key d)) eqn:Hd;
        [reflexivity|]. cbn. rewrite lookup_insert_ne; [reflexivity|]. congruence. }
    assert (Hsame : dw_key d <> k \/ write_error (storage w) k <> None ->
                    items (storage (after_write dev d w)) !! k =
                    items (storage w) !! k).
    { intros Hc. unfold after_write.
      destruct (write_error (storage w) (dw_key d)) eqn:Hd; [reflexivity|].
      cbn. apply lookup_insert_ne. destruct Hc as [Hc|Hc]; congruence. }
    destruct (String.eqb_spec (dw_key d) k) as [Heq|Hne].
    + destruct (write_error (storage w) k) eqn:Hk.
      * apply Hsame. right. congruence.
      * unfold after_write. rewrite Heq, Hk. cbn. apply lookup_insert_eq.
    + rewrite Hsame by now left. now destruct (write_error (storage w) k).
Qed.

Lemma after_writes_frame (ds : list DeferredWrite) (w : World) :
  let w' := fold_left (fun w d => after_write dev d w) ds w in
  ctx w' = ctx w /\ clock w' = clock w /\
  read_error (storage w') = read_error (storage w) /\
  write_error (storage w') = write_error (storage w).
Proof.
  revert w. induction ds as [|d ds IH]; intros w; [now repeat split|].
  cbn [fold_left]. cbn zeta in *.
  destruct (IH (after_write dev d w)) as (-> & -> & -> & ->).
  destruct (after_write_ctx d w) as [-> ->].
  now rewrite after_write_read_error, after_write_write_error.
Qed.


(** X6: the post-render hook never touches the clock, the response or the
    request path, and it never throws; it adds at most one write to the
    queue of the event, behind the writes already pending. *)
Theorem post_render_frame (r : NuxtRenderResponse) (w : World) :
  let out := render_response' r w in
  let w' := final_world out in
  returned out = true /\
  clock w' = clock w /\
  response (ctx w') = response (ctx w) /\
  request_path w' = request_path w /\
  exists new : list DeferredWrite,
    pending_writes w' = (pending_writes w ++ new)%list /\ (length new <= 1)%nat.
Proof.
  cbv zeta. split; [apply render_response_returns|].
  destruct (render_response_cases r w)
    as [->|[(_ & _ & b & _ & ->)|(_ & _ & _ & _ & art & _ & ->)]].
  - do 3 (split; [reflexivity|]). exists []. rewrite app_nil_r.
    split; [reflexivity | cbn; lia].
  - do 3 (split; [reflexivity|]). eexists [_]. split; [reflexivity | cbn; lia].
  - do 3 (split; [reflexivity|]). eexists [_]. split; [reflexivity | cbn; lia].
Qed.

(** X7: every write the post-render hook schedules is stamped with the
    running build and the current time and goes under the key of that build
    and of the route path it reports; and a write is scheduled only for a
    response whose status code is present, not zero and below 400. *)
Theorem scheduled_writes_stamped (r : NuxtRenderResponse) (w : World) :
  let w' := final_world (render_response' r w) in
  exists new : list DeferredWrite,
    pending_writes w' = (pending_writes w ++ new)%list /\
    Forall (stamped buildId (clock w)) new /\
    (new <> [] -> success_status r).
Proof.
  cbv zeta.
  destruct (render_response_cases r w)
    as [->|[(He & _ & b & _ & ->)|(He & _ & _ & _ & art & _ & ->)]].
  - exists []. rewrite app_nil_r. split; [reflexivity|].
    split; [constructor | congruence].
  - eexists [_]. split; [reflexivity|]. split.
    + constructor; [now repeat split | constructor].
    + intros _. now apply error_or_unknown_false.
  - eexists [_]. split; [reflexivity|]. split.
    + constructor; [now repeat split | constructor].
    + intros _. now apply error_or_unknown_false.
Qed.

(** X8: the post-render hook never puts anything into the artifact slot.
    On a data-only request the slot is left as it is, even when it holds
    an artifact; the slot changes only when an artifact is consumed (a
    successful HTML response of a route with ISR or cache rules), and it is
    empty then. *)
Theorem slot_discipline (r : NuxtRenderResponse) (w : World) :
  let w' := final_world (render_response' r w) in
  (PAYLOAD_URL_RE_test (request_path w) = true -> slot w' = slot w) /\
  (slot w' <> slot w ->
   slot w' = None /\ success_status r /\
   PAYLOAD_URL_RE_test (request_path w) = false /\
   isHtmlResponse r = true /\
   isISRRoute getRouteRules (event (ctx w)) = true).
Proof.
  cbv zeta.
  destruct (render_response_cases r w)
    as [->|[(_ & _ & b & _ & ->)|(He & Hp & Hh & Hi & art & _ & ->)]].
  - split; [reflexivity|]. intros H. now contradict H.
  - split; [reflexivity|]. intros H. now contradict H.
  - split; [congruence|]. intros _. repeat split; try assumption.
    now apply error_or_unknown_false.
Qed.

(** X9: settling the queue never throws and empties the queue; it leaves
    the response, the slot, the path and the clock alone. Afterwards a key
    whose writes the store accepts holds the entry of the last write queued
    for it; a key without queued write, or whose writes the store rejects,
    holds what it held before: a rejected write is dropped. *)
Theorem settle_effect (w : World) (k : string) :
  let out := settle dev w in
  let w' := final_world out in
  returned out = true /\
  pending_writes w' = [] /\
  response (ctx w') = response (ctx w) /\ slot w' = slot w /\
  request_path w' = request_path w /\ clock w' = clock w /\
  items (storage w') !! k =
    match write_error (storage w) k, last_write k (pending_writes w) with
    | None, Some e => Some e
    | _, _ => items (storage w) !! k
    end.
Proof.
  cbv zeta. rewrite settle_run, settle_writes_run. cbn [returned final_world].
  rewrite after_writes_lookup.
  match goal with
  | |- context [fold_left _ ?ds ?x] =>
      destruct (after_writes_frame ds x) as (Hc & Hk & _ & _)
  end.
  cbv zeta in Hc, Hk. unfold pending_writes, slot, request_path in *.
  rewrite Hc, Hk. now repeat split.
Qed.

End HookEffects.

Lemma scheduled_writes_stamped_witness :
  exists new : list DeferredWrite,
    pending_writes
      (final_world
         (render_response "B1" false Sample.isr_rules
            (Sample.json_response (BodyString "[1]") (Some 200))
            Sample.data_request_offline)) =
      (pending_writes Sample.data_request_offline ++ new)%list /\
    Forall (stamped "B1" (clock Sample.data_request_offline)) new /\
    success_status (Sample.json_response (BodyString "[1]") (Some 200)).
Proof.
  destruct (scheduled_writes_stamped "B1" false Sample.isr_rules
              (Sample.json_response (BodyString "[1]") (Some 200))
              Sample.data_request_offline) as (new & Hp & Hf & Hs).
  exists new. repeat split; try assumption. apply Hs.
  intros ->. vm_compute in Hp. discriminate.
Defined.

Lemma slot_discipline_witness :
  slot (final_world
          (render_response "B1" false Sample.isr_rules
             (Sample.json_response (BodyString "[1]") (Some 200))
             (with_slot (Some (artifact "[2]")) Sample.data_request_offline))) =
    Some (artifact "[2]").
Proof.
  apply (slot_discipline "B1" false Sample.isr_rules
           (Sample.json_response (BodyString "[1]") (Some 200))
           (with_slot (Some (artifact "[2]")) Sample.data_request_offline)).
  reflexivity.
Defined.

(** ** From a render to a later data-only request *)

Section RoundTrip.

Variable buildId : string.
Variable dev : bool.
Variable getRouteRules : H3Event -> NitroRouteRules.

Local Abbreviation render_response' := (render_response buildId dev getRouteRules).

(** A found entry of the running build is served exactly while its age in
    milliseconds is within the grace period. *)
Lemma served_iff_fresh (w : World) (cached : CachedPayload) :
  PAYLOAD_URL_RE_test (request_path w) = true ->
  read_error (storage w) (lookup_key buildId w) = None ->
  items (storage w) !! lookup_key buildId w = Some cached ->
  cp_buildId cached = buildId ->
  response (ctx w) = None ->
  response (ctx (final_world (render_before buildId dev w))) =
    Some (hit_response cached)
  <-> clock w - cp_cachedAt cached <= PAYLOAD_CACHE_STALE_TTL * 1000.
Proof.
  intros Hp Hr Hi Hb Hn.
  rewrite (render_before_found buildId dev w cached Hp Hr Hi).
  rewrite Hb, String.eqb_refl. cbn [negb].
  rewrite <- age_le_iff_ms.
  change (inject_Z PAYLOAD_CACHE_STALE_TTL) with (inject_Z (2 * PAYLOAD_CACHE_TTL)).
  rewrite <- too_old_false_iff.
  destruct (too_old _); cbn [final_world]; [|now split].
  rewrite Hn. split; discriminate.
Qed.

(** Settling a queue whose last write the store accepts. *)
Lemma lookup_after_settle (w : World) (ds : list DeferredWrite) (d : DeferredWrite) :
  pending_writes w = (ds ++ [d])%list ->
  write_error (storage w) (dw_key d) = None ->
  let st := storage (final_world (settle dev w)) in
  items st !! dw_key d = Some (dw_entry d) /\
  read_error st = read_error (storage w).
Proof.
  intros Hp Hw. cbv zeta. rewrite settle_run, Hp. split.
  - now apply settle_writes_last.
  - rewrite settle_writes_run. cbn [final_world].
    match goal with
    | |- context [fold_left _ ?l ?x] =>
        destruct (after_writes_frame dev l x) as (_ & _ & Hre & _)
    end.
    exact Hre.
Qed.

(** X10: the round trip from an HTML render to its data-only companion.
    When the post-render hook has consumed the artifact of an HTML render
    and the store has accepted the write, a later data-only request of the
    same build whose route path is the one of the HTML request, and whose
    lookup succeeds, is answered with the body, status code and headers of
    the artifact exactly while no more than the grace period has passed
    since the render. *)
Theorem html_render_then_payload_request
    (r : NuxtRenderResponse) (w w' : World) (art : PayloadResponse) :
  error_or_unknown r = false ->
  PAYLOAD_URL_RE_test (request_path w) = false ->
  isHtmlResponse r = true ->
  isISRRoute getRouteRules (event (ctx w)) = true ->
  slot w = Some art ->
  let key := getCacheKey buildId (htmlRoutePath (request_path w)) in
  write_error (storage w) key = None ->
  read_error (storage w) key = None ->
  storage w' = storage (final_world (settle dev (final_world (render_response' r w)))) ->
  PAYLOAD_URL_RE_test (request_path w') = true ->
  getRouteFromPayloadUrl (request_path w') = htmlRoutePath (request_path w) ->
  response (ctx w') = None ->
  response (ctx (final_world (render_before buildId dev w'))) = Some (replayed art)
  <-> clock w' - clock w <= PAYLOAD_CACHE_STALE_TTL * 1000.
Proof.
  intros He Hp Hh Hi Hs key Hw Hr Hst Hp' Hroute Hn.
  rewrite render_response_html in Hst by assumption.
  rewrite Hh, Hi, Hs in Hst. cbn [andb final_world] in Hst.
  match type of Hst with
  | _ = storage (final_world (settle dev ?w1)) =>
      destruct (lookup_after_settle w1 (pending_writes w)
                  (scheduled buildId (htmlRoutePath (request_path w)) art w)
                  eq_refl Hw) as [Hitem Hread]
  end.
  cbv zeta in Hitem, Hread. rewrite <- Hst in Hitem, Hread.
  assert (Hkey : lookup_key buildId w' = key)
    by (unfold lookup_key, key; now rewrite Hroute).
  apply (served_iff_fresh w' (entry_of buildId (clock w) art)); try assumption.
  - rewrite Hkey, Hread. exact Hr.
  - rewrite Hkey. exact Hitem.
  - reflexivity.
Qed.

(** X11: the round trip from one data-only render to the next request.
    When the post-render hook has cached the string body of a successful
    data-only render and the store has accepted the write, a later
    data-only request of the same build and route path whose lookup
    succeeds is answered with that body, that status code and the fixed
    headers exactly while no more than the grace period has passed. *)
Theorem payload_render_then_payload_request
    (r : NuxtRenderResponse) (w w' : World) (b : string) (n : Z) :
  PAYLOAD_URL_RE_test (request_path w) = true ->
  statusCode r = Some n -> n <> 0 -> n < 400 ->
  body r = BodyString b ->
  let key := lookup_key buildId w in
  write_error (storage w) key = None ->
  read_error (storage w) key = None ->
  storage w' = storage (final_world (settle dev (final_world (render_response' r w)))) ->
  PAYLOAD_URL_RE_test (request_path w') = true ->
  getRouteFromPayloadUrl (request_path w') = getRouteFromPayloadUrl (request_path w) ->
  response (ctx w') = None ->
  response (ctx (final_world (render_before buildId dev w'))) =
    Some {| body := BodyString b; statusCode := Some n;
            statusMessage := Some "OK"; headers := Some payload_headers |}
  <-> clock w' - clock w <= PAYLOAD_CACHE_STALE_TTL * 1000.
Proof.
  intros Hp Hs Hn0 Hn4 Hb key Hw Hr Hst Hp' Hroute Hn.
  assert (He : error_or_unknown r = false).
  { apply error_or_unknown_false. now exists n. }
  rewrite render_response_payload in Hst by assumption.
  rewrite Hb, Hs in Hst. cbn [final_world default] in Hst.
  match type of Hst with
  | _ = storage (final_world (settle dev (after_cachePayload _ _ ?route ?pl _))) =>
      destruct (lookup_after_settle
                  (after_cachePayload buildId dev route pl w)
                  (pending_writes w) (scheduled buildId route pl w)
                  eq_refl Hw) as [Hitem Hread]
  end.
  cbv zeta in Hitem, Hread. rewrite <- Hst in Hitem, Hread.
  assert (Hkey : lookup_key buildId w' = key)
    by (unfold lookup_key, key; now rewrite Hroute).
  match type of Hitem with
  | _ = Some ?e => apply (served_iff_fresh w' e); try assumption
  end.
  - rewrite Hkey, Hread. exact Hr.
  - rewrite Hkey. exact Hitem.
  - reflexivity.
Qed.

End RoundTrip.

Lemma html_render_then_payload_request_witness :
  response
    (ctx (final_world
            (render_before "B1" false
               (incoming
                  (storage
                     (final_world
                        (settle false
                           (final_world
                              (render_response "B1" false isr_rules (html_response 200)
                                 (html_request (Some (artifact "[1]"))))))))
                  (t0 + 59000) "/pkg/vue/_payload.json?abc")))) =
    Some (replayed (artifact "[1]")).
Proof.
  apply (html_render_then_payload_request "B1" false isr_rules (html_response 200)
           (html_request (Some (artifact "[1]"))) _ (artifact "[1]"));
    try reflexivity.
  vm_compute. discriminate.
Defined.

Lemma payload_render_then_payload_request_witness :
  response
    (ctx (final_world
            (render_before "B1" false
               (incoming
                  (storage
                     (final_world
                        (settle false
                           (final_world
                              (render_response "B1" false isr_rules
                                 (json_response (BodyString "[7]") (Some 200))
                                 (incoming (healthy ∅) t0 "/a/b/_payload.json"))))))
                  (t0 + 120000) "/a/b/_payload.json?x=1")))) =
    Some {| body := BodyString "[7]"; statusCode := Some 200;
            statusMessage := Some "OK"; headers := Some payload_headers |}.
Proof.
  apply (payload_render_then_payload_request "B1" false isr_rules
           (json_response (BodyString "[7]") (Some 200))
           (incoming (healthy ∅) t0 "/a/b/_payload.json") _ "[7]" 200);
    try reflexivity; try lia; vm_compute; discriminate.
Defined.

(** ** What the serialiser changes, and what it leaves *)

Section SerializerEffects.

Context {Value Reducers : Type}.
Variable no_reducers : Reducers.
Variable stringify : SplitPayload Value -> Reducers -> Error + string.
Variable dev : bool.

Local Abbreviation app_rendered' := (app_rendered no_reducers stringify dev).
Local Abbreviation stash_conditions' := (stash_conditions no_reducers stringify).

(** The data the hook would serialise fails to serialise. *)
Lemma app_rendered_throws (c : NuxtSSRContext Value Reducers) (w : World)
    (pl : NuxtPayload Value) (d : gmap string Value) (e : Error) :
  error_or_noSSR c = false ->
  payload c = Some pl -> data pl = Some d -> (0 < size d)%nat ->
  stringify (mkSplitPayload d (prerenderedAt pl))
    (default no_reducers (payloadReducers c)) = inl e ->
  app_rendered' (Some c) w = Returned tt (after_serialize_error dev e w).
Proof.
  intros Hg Hpl Hd Hsz Hstr.
  unfold app_rendered, call_stringify, after_serialize_error.
  rewrite Hg, Hpl. cbn. rewrite Hd.
  destruct (Nat.eqb_spec (size d) 0) as [E|_]; [lia|].
  run. rewrite Hd, Hstr. destruct dev, w; reflexivity.
Qed.

(** The three ways the hook can end. *)
Lemma app_rendered_outcomes (ssr : option (NuxtSSRContext Value Reducers)) (w : World) :
  app_rendered' ssr w = Returned tt w \/
  (exists c body,
      ssr = Some c /\ stash_conditions' c body /\
      app_rendered' ssr w = Returned tt (after_stash body w)) \/
  (exists e, app_rendered' ssr w = Returned tt (after_serialize_error dev e w)).
Proof.
  destruct ssr as [c|]; [|now left].
  destruct (error_or_noSSR c) eqn:Hg.
  { left. unfold app_rendered. now rewrite Hg. }
  destruct (payload c) as [pl|] eqn:Hpl;
    [|left; unfold app_rendered; now rewrite Hg, Hpl].
  destruct (data pl) as [d|] eqn:Hd;
    [|left; unfold app_rendered; rewrite Hg, Hpl; cbn; now rewrite Hd].
  destruct (Nat.eqb_spec (size d) 0) as [E|E].
  { left. unfold app_rendered. rewrite Hg, Hpl. cbn. rewrite Hd.
    apply Nat.eqb_eq in E. now rewrite E. }
  assert (Hsz : (0 < size d)%nat) by lia.
  destruct (stringify (mkSplitPayload d (prerenderedAt pl))
              (default no_reducers (payloadReducers c))) as [e|body] eqn:Hstr.
  - right. right. exists e. now apply (app_rendered_throws c w pl d e).
  - destruct (ssr_event c) as [[]|] eqn:Hev.
    + right. left. exists c, body.
      assert (Hc : stash_conditions' c body).
      { apply error_or_noSSR_false in Hg as [H1 [H2 H3]].
        unfold stash_conditions. repeat split; try assumption.
        now exists pl, d. }
      split; [reflexivity|]. split; [exact Hc|]. now apply app_rendered_stash.
    + left. unfold app_rendered, call_stringify. rewrite Hg, Hpl. cbn. rewrite Hd.
      apply Nat.eqb_neq in E. rewrite E. run. now rewrite Hd, Hstr, Hev.
Qed.

(** X12: the serialiser never touches the store, the clock, the response,
    the request path or the pending writes, and it never throws. The only
    part of the request it can change is the artifact slot, and the slot
    then holds the artifact of a body that meets the conditions. *)
Theorem serializer_frame (ssr : option (NuxtSSRContext Value Reducers)) (w : World) :
  let out := app_rendered' ssr w in
  let w' := final_world out in
  returned out = true /\
  storage w' = storage w /\ clock w' = clock w /\
  response (ctx w') = response (ctx w) /\
  request_path w' = request_path w /\
  pending_writes w' = pending_writes w /\
  (slot w' = slot w \/
   exists c body,
     ssr = Some c /\ stash_conditions' c body /\ slot w' = Some (artifact body)).
Proof.
  cbv zeta.
  destruct (app_rendered_outcomes ssr w)
    as [->|[(c & body & Hc & Hcond & ->)|(e & ->)]].
  - now repeat split; try left.
  - do 6 (split; [reflexivity|]). right. now exists c, body.
  - now repeat split; try left.
Qed.

(** X13: when the payload cannot be serialised, the hook returns without
    touching the request context or the store: nothing is stashed, an
    artifact already in the slot stays, and the only trace is one warning
    on the development console. *)
Theorem serializer_failure_is_swallowed
    (c : NuxtSSRContext Value Reducers) (w : World)
    (pl : NuxtPayload Value) (d : gmap string Value) (e : Error) :
  noSSR c = false -> ssr_error c = None -> payload_error pl = None ->
  payload c = Some pl -> data pl = Some d -> (0 < size d)%nat ->
  stringify (mkSplitPayload d (prerenderedAt pl))
    (default no_reducers (payloadReducers c)) = inl e ->
  let out := app_rendered' (Some c) w in
  let w' := final_world out in
  returned out = true /\
  ctx w' = ctx w /\ storage w' = storage w /\
  console w' = (if dev then console w ++ [WarnSerializeFailed e] else console w)%list.
Proof.
  intros Hn He Hpe Hpl Hd Hsz Hstr. cbv zeta.
  assert (Hg : error_or_noSSR c = false).
  { apply error_or_noSSR_false. rewrite Hpl. now repeat split. }
  rewrite (app_rendered_throws c w pl d e Hg Hpl Hd Hsz Hstr).
  now repeat split.
Qed.

Variable buildId : string.
Variable getRouteRules : H3Event -> NitroRouteRules.

(** X14: the serialiser does not look at the request path. When it runs in
    the render of a data-only request, it stashes its artifact all the
    same; the post-render hook then caches the body of the response, not
    the artifact, and leaves the artifact in the slot. *)
Theorem data_only_render_keeps_artifact
    (c : NuxtSSRContext Value Reducers) (serialized : string)
    (r : NuxtRenderResponse) (w : World) (b : string) (n : Z) :
  PAYLOAD_URL_RE_test (request_path w) = true ->
  stash_conditions' c serialized -> ssr_event c = Some CurrentEvent ->
  statusCode r = Some n -> n <> 0 -> n < 400 -> body r = BodyString b ->
  let w1 := final_world (app_rendered' (Some c) w) in
  let w2 := final_world (render_response buildId dev getRouteRules r w1) in
  let route := getRouteFromPayloadUrl (request_path w) in
  slot w2 = Some (artifact serialized) /\
  pending_writes w2 =
    (pending_writes w ++
       [mkDeferredWrite (getCacheKey buildId route)
          {| cp_body := b; cp_statusCode := n; cp_headers := payload_headers;
             cp_cachedAt := clock w; cp_buildId := buildId |} route])%list.
Proof.
  intros Hp Hcond Hev Hs Hn0 Hn4 Hb. cbv zeta.
  rewrite (app_rendered_stash no_reducers stringify dev c serialized w Hcond Hev).
  cbn [final_world].
  assert (He : error_or_unknown r = false).
  { apply error_or_unknown_false. now exists n. }
  rewrite render_response_payload by assumption.
  rewrite Hb, Hs. now split.
Qed.

End SerializerEffects.

Lemma serializer_failure_is_swallowed_witness :
  slot (final_world
          (app_rendered tt sample_stringify true (Some rendered_cyclic)
             (html_request (Some (artifact "[0]"))))) = Some (artifact "[0]").
Proof.
  assert (Hsz : (0 < size ({[ "cyclic" := 1%Z ]} : gmap string Z))%nat)
    by (vm_compute; lia).
  pose proof (serializer_failure_is_swallowed tt sample_stringify true rendered_cyclic
                (html_request (Some (artifact "[0]")))
                (mkPayload None (Some {[ "cyclic" := 1 ]}) None)
                {[ "cyclic" := 1 ]} "DevalueError"
                eq_refl eq_refl eq_refl eq_refl eq_refl Hsz eq_refl) as H.
  cbv zeta in H. destruct H as (_ & Hctx & _).
  unfold slot. now rewrite Hctx.
Defined.

Lemma data_only_render_keeps_artifact_witness :
  slot (final_world
          (render_response "B1" false isr_rules
             (json_response (BodyString "[7]") (Some 200))
             (final_world
                (app_rendered tt sample_stringify false (Some rendered_ok)
                   data_request_offline)))) = Some (artifact "[1]").
Proof.
  apply (data_only_render_keeps_artifact tt sample_stringify false "B1" isr_rules
           rendered_ok "[1]" (json_response (BodyString "[7]") (Some 200))
           data_request_offline "[7]" 200);
    try reflexivity; try lia.
  repeat split. exists (mkPayload None (Some {[ "pkg" := 1 ]}) None), {[ "pkg" := 1 ]}.
  repeat split. vm_compute. lia.
Defined.

(** ** Logging *)

Lemma after_writes_silent (ds : list DeferredWrite) (w : World) :
  console (fold_left (fun w d => after_write false d w) ds w) = console w.
Proof.
  revert w. induction ds as [|d ds IH]; intros w; [reflexivity|].
  cbn [fold_left]. rewrite IH. unfold after_write.
  now destruct (write_error (storage w) (dw_key d)).
Qed.

(** X15: outside development mode no hook writes to the console, whatever
    happens: a hit, a rejected lookup, a cached response, a rejected write
    or a failed serialisation. *)
Theorem silent_in_production
    (buildId : string) (getRouteRules : H3Event -> NitroRouteRules)
    {Value Reducers : Type} (no_reducers : Reducers)
    (stringify : SplitPayload Value -> Reducers -> Error + string)
    (r : NuxtRenderResponse) (ssr : option (NuxtSSRContext Value Reducers))
    (w : World) :
  console (final_world (render_before buildId false w)) = console w /\
  console (final_world (render_response buildId false getRouteRules r w)) = console w /\
  console (final_world (settle false w)) = console w /\
  console (final_world (app_rendered no_reducers stringify false ssr w)) = console w.
Proof.
  repeat split.
  - destruct (PAYLOAD_URL_RE_test (request_path w)) eqn:Hp;
      [|now rewrite render_before_other].
    destruct (read_error (storage w) (lookup_key buildId w)) as [e|] eqn:Hr;
      [now rewrite (render_before_read_error buildId false w e Hp Hr)|].
    destruct (items (storage w) !! lookup_key buildId w) as [cached|] eqn:Hi;
      [|now rewrite render_before_absent].
    rewrite (render_before_found buildId false w cached Hp Hr Hi).
    destruct (negb _); [reflexivity|]. now destruct (too_old _).
  - destruct (render_response_cases buildId false getRouteRules r w)
      as [->|[(_ & _ & b & _ & ->)|(_ & _ & _ & _ & art & _ & ->)]]; reflexivity.
  - rewrite settle_run, settle_writes_run. cbn [final_world].
    now rewrite after_writes_silent.
  - destruct (app_rendered_outcomes no_reducers stringify false ssr w)
      as [->|[(c & body & _ & _ & ->)|(e & ->)]]; reflexivity.
Qed.

(** ** Which responses are cached *)

Section Eligibility.
Import Js JsFacts.

Variable buildId : string.
Variable dev : bool.
Variable getRouteRules : H3Event -> NitroRouteRules.

Lemma includes_unfold (needle hay : string) :
  includes needle hay =
    match strip_prefix needle hay with
    | Some _ => true
    | None =>
        match hay with
        | EmptyString => false
        | String _ hay' => includes needle hay'
        end
    end.
Proof. destruct hay; reflexivity. Qed.

Lemma includes_spec (needle hay : string) :
  includes needle hay = true <-> exists a b : string, hay = a ++ needle ++ b.
Proof.
  split.
  - induction hay as [|c hay IH]; rewrite includes_unfold;
      destruct (strip_prefix needle _) as [rest|] eqn:E.
    + intros _. apply strip_prefix_Some in E. now exists "", rest.
    + discriminate.
    + intros _. apply strip_prefix_Some in E. now exists "", rest.
    + intros H. destruct (IH H) as (a & b & ->).
      exists (String c a), b. now rewrite append_cons.
  - intros (a & b & ->). induction a as [|c a IH].
    + rewrite append_nil, includes_unfold. now rewrite strip_prefix_app.
    + rewrite append_cons, includes_unfold.
      now destruct (strip_prefix needle _).
Qed.

(** X16: a response counts as an HTML response exactly when it has
    headers, these have a [content-type] entry under that lower-case name,
    and the value contains [text/html] somewhere. *)
Theorem html_response_recognition (r : NuxtRenderResponse) :
  isHtmlResponse r = true <->
  exists (h : gmap string string) (a b : string),
    headers r = Some h /\ h !! "content-type" = Some (a ++ "text/html" ++ b).
Proof.
  unfold isHtmlResponse. split.
  - destruct (headers r) as [h|]; [|discriminate].
    destruct (h !! "content-type") as [v|] eqn:Hv; [|discriminate].
    intros H. apply includes_spec in H as (a & b & ->). now exists h, a, b.
  - intros (h & a & b & -> & ->). apply includes_spec. now exists a, b.
Qed.

(** X17: the queue of the event grows only in two situations. Either the
    request is data-only and the response body is a string: the entry then
    carries that body and the status code of the response, under the route
    path of the data-only URL. Or the request is not data-only, the
    response is an HTML response of a route with ISR or cache rules, and an
    artifact is in the slot: the entry then carries the artifact, under the
    normalised path of the request. *)
Theorem write_requires_eligibility (r : NuxtRenderResponse) (w : World) :
  let w' := final_world (render_response buildId dev getRouteRules r w) in
  pending_writes w' <> pending_writes w ->
  exists d : DeferredWrite,
    pending_writes w' = (pending_writes w ++ [d])%list /\
    ((PAYLOAD_URL_RE_test (request_path w) = true /\
      body r = BodyString (cp_body (dw_entry d)) /\
      statusCode r = Some (cp_statusCode (dw_entry d)) /\
      dw_routePath d = getRouteFromPayloadUrl (request_path w)) \/
     (PAYLOAD_URL_RE_test (request_path w) = false /\
      isHtmlResponse r = true /\
      isISRRoute getRouteRules (event (ctx w)) = true /\
      slot w = Some {| pr_body := cp_body (dw_entry d);
                       pr_statusCode := cp_statusCode (dw_entry d);
                       pr_headers := cp_headers (dw_entry d) |} /\
      dw_routePath d = htmlRoutePath (request_path w))).
Proof.
  cbv zeta.
  destruct (render_response_cases buildId dev getRouteRules r w)
    as [->|[(He & Hp & b & Hb & ->)|(He & Hp & Hh & Hi & art & Hs & ->)]].
  - intros H. now contradict H.
  - intros _. eexists. split; [reflexivity|]. left.
    apply error_or_unknown_false in He as (n & Hn & _). rewrite Hn.
    now repeat split.
  - intros _. eexists. split; [reflexivity|]. right.
    repeat split; try assumption. rewrite Hs. now destruct art.
Qed.

End Eligibility.

Lemma write_requires_eligibility_witness :
  exists d : DeferredWrite,
    pending_writes
      (final_world
         (render_response "B1" false isr_rules (html_response 200)
            (html_request (Some (artifact "[1]"))))) =
      (pending_writes (html_request (Some (artifact "[1]"))) ++ [d])%list /\
    cp_body (dw_entry d) = "[1]".
Proof.
  destruct (write_requires_eligibility "B1" false isr_rules (html_response 200)
              (html_request (Some (artifact "[1]"))))
    as (d & Hd & [(Hp & _)|(_ & _ & _ & Hs & _)]).
  - vm_compute. discriminate.
  - vm_compute in Hp. discriminate.
  - exists d. split; [exact Hd|]. vm_compute in Hs. now inversion Hs.
Defined.

(** ** The registry route *)

Section RegistryFacts.
Import Registry.

Variable Package : Type.
Variable assertValidPackageName : string -> option JsError.
Variable fetchNpmPackage : string -> JsError + Package.

Local Abbreviation handler' := (handler Package assertValidPackageName fetchNpmPackage).

(** X18: the handler answers with a package only for a non-empty name that
    passed validation, and the answer is then the one the registry fetch
    gave for that name; a missing or empty name never reaches the
    validation or the fetch: whatever these two would do, the handler
    throws the 400 error. *)
Theorem registry_answer_is_upstream (param : option string) (package : Package) :
  (handler Package assertValidPackageName fetchNpmPackage param = inr package <->
   exists pkg : string,
     param = Some pkg /\ pkg <> "" /\
     assertValidPackageName pkg = None /\
     fetchNpmPackage pkg = inr package) /\
  (param = None \/ param = Some "" ->
   handler Package assertValidPackageName fetchNpmPackage param =
     inl (createError 400 "Package name is required")).
Proof.
  split; [|intros [->| ->]; reflexivity].
  unfold handler. split.
  - destruct param as [[|c pkg]|]; try discriminate.
    destruct (assertValidPackageName (String c pkg)) eqn:Hv; [discriminate|].
    destruct (fetchNpmPackage (String c pkg)) as [e|x] eqn:Hf.
    + destruct (carries_status e); discriminate.
    + intros H. inversion H; subst. exists (String c pkg). now repeat split.
  - intros (pkg & -> & Hne & Hv & Hf).
    destruct pkg as [|c pkg]; [congruence|]. now rewrite Hv, Hf.
Qed.

(** X19: once a name has passed validation, every error the handler throws
    carries a status code: it is the error of the fetch itself when that
    one carries a status code, and the 502 error otherwise. *)
Theorem registry_fetch_errors_carry_status (pkg : string) (e : JsError) :
  pkg <> "" ->
  assertValidPackageName pkg = None ->
  handler' (Some pkg) = inl e ->
  carries_status e = true /\
  (fetchNpmPackage pkg = inl e \/
   (e = createError 502 "Failed to fetch package from npm registry" /\
    exists e0, fetchNpmPackage pkg = inl e0 /\ carries_status e0 = false)).
Proof.
  intros Hne Hv. unfold handler.
  destruct pkg as [|c pkg]; [congruence|]. rewrite Hv.
  destruct (fetchNpmPackage (String c pkg)) as [e0|x] eqn:Hf; [|discriminate].
  destruct (carries_status e0) eqn:Hc; intros H; inversion H; subst.
  - split; [exact Hc | now left].
  - split; [reflexivity|]. right. split; [reflexivity|]. now exists e0.
Qed.

End RegistryFacts.

(** A missing name, with a validation and a fetch that would both throw. *)
Lemma registry_answer_is_upstream_witness :
  Registry.handler unit
    (fun _ => Some (Registry.OtherError "invalid"))
    (fun _ => inl (Registry.OtherError "socket hang up")) None =
  inl (Registry.createError 400 "Package name is required").
Proof.
  apply (registry_answer_is_upstream unit
           (fun _ => Some (Registry.OtherError "invalid"))
           (fun _ => inl (Registry.OtherError "socket hang up")) None tt).
  left. reflexivity.
Defined.

Lemma registry_fetch_errors_carry_status_witness :
  Registry.carries_status (Registry.createError 502 "Failed to fetch package from npm registry") = true.
Proof.
  apply (registry_fetch_errors_carry_status unit (fun _ => None)
           (fun _ => inl (Registry.OtherError "socket hang up")) "vue");
    [discriminate | reflexivity | reflexivity].
Defined.

(** ** The hydration fix *)

Section HydrationFixFacts.
Import HydrationFix.

Context {Value : Type}.

(** X20: after [setup] the payload data is always defined: the data that
    was there, or an empty object when there was none. The refresh is
    hooked, once, exactly when the app is hydrating a server-rendered page
    whose data was missing or had no key; otherwise the hooks are as
    before. *)
Theorem hydration_fix_effect (app : @NuxtApp Value) :
  let app' := setup app in
  payload_data app' = Some (default ∅ (payload_data app)) /\
  (suspense_resolve_once app' = (suspense_resolve_once app ++ [RefreshNuxtData])%list \/
   suspense_resolve_once app' = suspense_resolve_once app) /\
  (suspense_resolve_once app' = (suspense_resolve_once app ++ [RefreshNuxtData])%list <->
   isHydrating app = true /\ payload_serverRendered app = true /\
   (payload_data app = None \/ payload_data app = Some ∅)).
Proof.
  cbv zeta. unfold setup.
  assert (Hempty : (size (default ∅ (payload_data app)) =? 0)%nat = true <->
                   (payload_data app = None \/ payload_data app = Some ∅)).
  { rewrite Nat.eqb_eq, map_size_empty_iff.
    destruct (payload_data app) as [d|]; cbn; split; intros H.
    - right. now rewrite H.
    - destruct H as [H|H]; [discriminate | now inversion H].
    - now left.
    - reflexivity. }
  destruct (isHydrating app), (payload_serverRendered app),
           (size (default ∅ (payload_data app)) =? 0)%nat eqn:E; cbn;
    (split; [reflexivity|]); (split; [auto|]); split; intros H;
    try (now repeat split; try apply Hempty);
    try (exfalso; apply (f_equal (@length _)) in H;
         rewrite length_app in H; cbn in H; lia);
    try (destruct H as (? & ? & H); try discriminate;
         apply Hempty in H; discriminate).
Qed.

End HydrationFixFacts.

(** ** The logger *)

Section LoggerFacts.
Import Logger.

Variable styleText : list string -> string -> string.
Variable number_text : Z -> string.

Local Abbreviation call' := (call styleText number_text).
Local Abbreviation calls' := (calls styleText number_text).

Lemma banners_emit (e : TermEvent) (s : State) :
  is_intro e = false -> banners (emit e s) = banners s.
Proof.
  intros H. unfold banners, emit. cbn [terminal].
  rewrite List.filter_app. cbn. rewrite H. cbn. now rewrite app_nil_r.
Qed.

(** One call: the flag only ever goes up, and a banner is added exactly by
    the first initialisation. *)
Lemma call_step (c : Call) (s : State) :
  isInitialized (call' c s) = isInitialized s || is_init c /\
  banners (call' c s) =
    (banners s + (if negb (isInitialized s) && is_init c then 1 else 0))%nat.
Proof.
  destruct c; cbn [call is_init];
    try (unfold logCommand, logSuccess, logError, logWarning, logInfo, showToken;
         cbv zeta; rewrite banners_emit by reflexivity; cbn [emit isInitialized];
         rewrite orb_false_r, andb_false_r; split; [reflexivity | lia]).
  unfold initLogger. destruct (isInitialized s) eqn:E.
  - rewrite E. cbn. split; [reflexivity | lia].
  - cbn [isInitialized]. split; [reflexivity|].
    unfold banners. cbn [terminal]. rewrite List.filter_app, length_app. reflexivity.
Qed.

Lemma calls_run (cs : list Call) (s : State) :
  isInitialized (calls' cs s) = isInitialized s || existsb is_init cs /\
  banners (calls' cs s) =
    (banners s + (if negb (isInitialized s) && existsb is_init cs then 1 else 0))%nat.
Proof.
  revert s. induction cs as [|c cs IH]; intros s.
  - cbn. rewrite orb_false_r, andb_false_r. split; [reflexivity | lia].
  - unfold calls in *. cbn [fold_left existsb].
    destruct (IH (call' c s)) as [Hi Hb].
    destruct (call_step c s) as [Hi1 Hb1].
    rewrite Hi, Hb, Hi1, Hb1. split.
    + now rewrite orb_assoc.
    + destruct (isInitialized s), (is_init c), (existsb is_init cs); cbn; lia.
Qed.

(** X21: whatever the exported functions are called with, in whatever
    order and however often, the banner is printed at most once after the
    module is loaded: exactly once when [initLogger] was called at all, and
    never otherwise. *)
Theorem logger_banner_once (cs : list Call) :
  let s := calls' cs loaded in
  isInitialized s = existsb is_init cs /\
  banners s = (if existsb is_init cs then 1 else 0)%nat.
Proof.
  cbv zeta. destruct (calls_run cs loaded) as [Hi Hb].
  rewrite Hi, Hb. now split.
Qed.

End LoggerFacts.
